(** * Cryptocurrency price tracker backend: the four HTTPS functions

    A shallow embedding of [functions/src/index.ts]: the handlers
    [getMarkets], [getFavorites], [toggleFavorite] and [getCoin], the
    request and response shapes they read and write, and the two
    collaborators they talk to (the document store and the upstream
    market-data API), followed by the properties of the favourite-toggle
    protocol and of the validation and proxy paths. *)

From Stdlib Require Import Ascii.
From stdpp Require Import gmap strings list sorting relations.

(** ** Strings

    A string is a sequence of code units; this development covers the
    code units 0..255 (the Latin-1 range), which is where every character
    of the validation patterns lives.  [code] is the numeric value of a
    code unit. *)

Module Js.

Definition code (c : ascii) : N := N_of_ascii c.

Definition in_range (lo hi : N) (c : ascii) : bool :=
  (lo <=? code c)%N && (code c <=? hi)%N.

(** White space and line terminators removed by [String.prototype.trim]:
    TAB, LF, VT, FF, CR, SPACE and NO-BREAK SPACE. *)
Definition isWhiteSpace (c : ascii) : bool :=
  in_range 9 13 c || (code c =? 32)%N || (code c =? 160)%N.

Fixpoint trimStart (s : string) : string :=
  match s with
  | EmptyString => EmptyString
  | String c s' => if isWhiteSpace c then trimStart s' else s
  end.

Fixpoint trimEnd (s : string) : string :=
  match s with
  | EmptyString => EmptyString
  | String c s' =>
      match trimEnd s' with
      | EmptyString => if isWhiteSpace c then EmptyString else String c EmptyString
      | r => String c r
      end
  end.

Definition trim (s : string) : string := trimEnd (trimStart s).

(** Upper-case letters of the range: A-Z, and the accented capitals
    192..222 except the multiplication sign 215.  Each has its lower-case
    partner 32 code units above. *)
Definition isUpper (c : ascii) : bool :=
  in_range 65 90 c || (in_range 192 222 c && negb (code c =? 215)%N).

Definition toLowerChar (c : ascii) : ascii :=
  if isUpper c then ascii_of_N (code c + 32) else c.

Fixpoint toLowerCase (s : string) : string :=
  match s with
  | EmptyString => EmptyString
  | String c s' => String (toLowerChar c) (toLowerCase s')
  end.

(** [forallb] over the code units of a string. *)
Fixpoint all (p : ascii → bool) (s : string) : bool :=
  match s with
  | EmptyString => true
  | String c s' => p c && all p s'
  end.

(** [/^[cls]{lo,hi}$/.test(s)]: without the [m] flag [^] and [$] anchor at
    the two ends of the input, so the test holds exactly when the whole
    string has between [lo] and [hi] code units, all of the class. *)
Definition test_class (cls : ascii → bool) (lo hi : nat) (s : string) : bool :=
  bool_decide (lo ≤ String.length s) && bool_decide (String.length s ≤ hi) && all cls s.

Definition isLowerAlpha (c : ascii) : bool := in_range 97 122 c.
Definition isUpperAlpha (c : ascii) : bool := in_range 65 90 c.
Definition isDigit (c : ascii) : bool := in_range 48 57 c.

(** The three character classes of the source:
    [[a-z]], [[a-zA-Z0-9_-]] and [[a-z0-9-]]. *)
Definition cls_currency (c : ascii) : bool := isLowerAlpha c.
Definition cls_userId (c : ascii) : bool :=
  isLowerAlpha c || isUpperAlpha c || isDigit c || (code c =? 95)%N || (code c =? 45)%N.
Definition cls_coinId (c : ascii) : bool :=
  isLowerAlpha c || isDigit c || (code c =? 45)%N.

(** A string is falsy exactly when it is empty. *)
Definition nonEmpty (s : string) : bool :=
  match s with EmptyString => false | _ => true end.

(** [encodeURIComponent]: the unreserved characters
    [A-Z a-z 0-9 - _ . ! ~ * ' ( )] stand for themselves, every other
    code unit is written as the percent-escaped bytes of its UTF-8
    encoding (one byte below 128, two bytes from 128 to 255). *)
Definition isUnreserved (c : ascii) : bool :=
  isLowerAlpha c || isUpperAlpha c || isDigit c ||
  bool_decide (code c ∈ [45; 95; 46; 33; 126; 42; 39; 40; 41]%N).

Definition hexDigit (n : N) : ascii :=
  if (n <? 10)%N then ascii_of_N (48 + n) else ascii_of_N (55 + n).

Definition percent (byte : N) (rest : string) : string :=
  String "%"%char (String (hexDigit (byte / 16)) (String (hexDigit (byte mod 16)) rest)).

Fixpoint encodeURIComponent (s : string) : string :=
  match s with
  | EmptyString => EmptyString
  | String c s' =>
      let rest := encodeURIComponent s' in
      if isUnreserved c then String c rest
      else if (code c <? 128)%N then percent (code c) rest
      else percent (192 + code c / 64) (percent (128 + code c mod 64) rest)
  end.

End Js.

(** ** Values of a request

    A query parameter or a body field is absent ([None] in the lookup) or
    one of the values below; numbers, arrays and nested objects are left
    out.  [truthy], [or_else] and [to_String] are JavaScript's
    truthiness, [a || b] and [String(a)] on them.  On these values
    [String(a)] always returns; on an object it may throw, so what is
    said of [getFavorites] and [getMarkets], which call it, is said of
    requests whose userId or currency is absent, null, a boolean or a
    string.  [toggleFavorite] and [getCoin] guard with [typeof] and
    treat every value that is not a string alike. *)

Inductive JsVal :=
| JNull
| JBool (b : bool)
| JStr (s : string).

Definition truthy (v : option JsVal) : bool :=
  match v with
  | None | Some JNull => false
  | Some (JBool b) => b
  | Some (JStr s) => Js.nonEmpty s
  end.

Definition or_else (v : option JsVal) (d : string) : JsVal :=
  match v with
  | Some x => if truthy v then x else JStr d
  | None => JStr d
  end.

Definition to_String (v : JsVal) : string :=
  match v with
  | JNull => "null"
  | JBool true => "true"
  | JBool false => "false"
  | JStr s => s
  end.

(** [typeof v === "string" ? f(v) : ""] *)
Definition if_string (v : option JsVal) (f : string → string) : string :=
  match v with
  | Some (JStr s) => f s
  | _ => ""
  end.

(** ** Requests and responses *)

Record Request := {
  method : string;
  query : gmap string JsVal;
  body : option (gmap string JsVal);   (* [None]: no body, [req.body ?? {}] *)
}.

(** The value [response.json()] gives for an upstream body: the result
    of parsing its text.  The handlers never look inside; they hand it to
    [res.json], which serialises the value again, so the bytes sent need
    not be the text received.  The value is named by the text it was
    parsed from. *)
Inductive Json := JsonDoc (text : string).

Inductive Data :=
| DataNull
| DataMarkets (markets : Json)
| DataCoin (coin : Json)
| DataError (error : string)
| DataFavorites (favorites : list string)
| DataFavorited (favorited : bool).

(** The uniform envelope [{status, message, data}]. *)
Record Envelope := {
  e_status : Z;
  message : string;
  data : Data;
}.

Inductive Payload :=
| Sent (text : string)
| SentJson (e : Envelope).

(** [headers] holds the headers the handler itself sets with [res.set];
    what the framework adds on sending (Content-Type and the like) is
    not part of it. *)
Record Response := {
  status : Z;
  headers : gmap string string;
  payload : option Payload;
}.

Definition fresh_response : Response :=
  {| status := 200; headers := ∅; payload := None |}.

Definition res_set (k v : string) (res : Response) : Response :=
  {| status := status res; headers := <[k := v]> (headers res); payload := payload res |}.

Definition res_status (code : Z) (res : Response) : Response :=
  {| status := code; headers := headers res; payload := payload res |}.

Definition res_send (text : string) (res : Response) : Response :=
  {| status := status res; headers := headers res; payload := Some (Sent text) |}.

Definition res_json (e : Envelope) (res : Response) : Response :=
  {| status := status res; headers := headers res; payload := Some (SentJson e) |}.

Definition setCorsHeaders (res : Response) : Response :=
  res_set "Access-Control-Allow-Headers" "Content-Type"
    (res_set "Access-Control-Allow-Methods" "GET, POST, OPTIONS"
       (res_set "Access-Control-Allow-Origin" "*" res)).

(** ** The upstream market-data API

    What [fetch(url)] does is the environment's choice: it throws (the
    network failed), or it resolves to a response with a status and a
    body.  [up_body] is the text of the body, [None] when reading it
    fails; [up_parses] says whether that text is well-formed JSON.
    [response.text()] and [response.json()] resolve or throw
    accordingly ([None] stands for the throw). *)

Record UpstreamResponse := {
  up_status : Z;
  up_body : option string;
  up_parses : bool;
}.

Inductive FetchResult :=
| FetchThrows
| FetchResolves (response : UpstreamResponse).

Definition response_ok (r : UpstreamResponse) : bool :=
  bool_decide (200 ≤ up_status r ≤ 299)%Z.

Definition response_text (r : UpstreamResponse) : option string := up_body r.

Definition response_json (r : UpstreamResponse) : option Json :=
  match up_body r with
  | Some text => if up_parses r then Some (JsonDoc text) else None
  | None => None
  end.

(** ** The document store

    A favourite lives at the path [users/{userId}/favorites/{coinId}]; a
    reference to it is the pair of the two identifiers. *)

Abbreviation DocRef := (string * string)%type.

Definition favoriteRef (userId coinId : string) : DocRef := (userId, coinId).

(** The sentinel [FieldValue.serverTimestamp()]: the value is filled in by
    the store when the write commits. *)
Inductive FieldValue := serverTimestamp.

(** The object literal [{coinId, createdAt: FieldValue.serverTimestamp()}]
    handed to [tx.set]. *)
Record FavoriteData := {
  d_coinId : string;
  d_createdAt : FieldValue;
}.

(** A stored Favorite entry: the fields of the document once the sentinel
    is resolved. *)
Record Favorite := {
  coinId : string;
  createdAt : N;
}.

Global Instance Favorite_eq_dec : EqDecision Favorite.
Proof. solve_decision. Defined.

(** Modelled from the spec: the document store is an external
    collaborator (sections 3, 6 and 9): a keyed collection of documents,
    at most one per reference, with a write-time clock from which it
    assigns the monotonic server timestamps. *)
Record Firestore := {
  docs : gmap DocRef Favorite;
  clock : N;
}.

Inductive WriteOp :=
| WSet (ref : DocRef) (d : FavoriteData)
| WDelete (ref : DocRef).

(** *** Transactions *)

(** What a transaction has done so far: the references it read and the
    writes it buffered. *)
Record TxState := {
  reads : list DocRef;
  writes : list WriteOp;
}.

(** Modelled from the spec: the store collaborator interface of section 6
    ([Tx.read], [Tx.write], [Tx.delete], [Tx.commit]).  A transaction body
    reads from the snapshot it was started on and buffers its writes; it
    is a computation in the state monad [Tx] over [TxState]. *)
Definition Tx (A : Type) : Type :=
  gmap DocRef Favorite → TxState → A * TxState.

Global Instance Tx_ret : MRet Tx := λ A a _ st, (a, st).
Global Instance Tx_bind : MBind Tx := λ A B k m snap st,
  let '(a, st') := m snap st in k a snap st'.

(** A document snapshot: the entry at the reference, if there is one. *)
Abbreviation DocumentSnapshot := (option Favorite).

Definition snap_exists (snap : DocumentSnapshot) : bool :=
  match snap with Some _ => true | None => false end.

Definition tx_get (ref : DocRef) : Tx DocumentSnapshot := λ snap st,
  (snap !! ref, {| reads := reads st ++ [ref]; writes := writes st |}).

Definition tx_set (ref : DocRef) (d : FavoriteData) : Tx unit := λ _ st,
  (tt, {| reads := reads st; writes := writes st ++ [WSet ref d] |}).

Definition tx_delete (ref : DocRef) : Tx unit := λ _ st,
  (tt, {| reads := reads st; writes := writes st ++ [WDelete ref] |}).

Definition tx_run {A} (body : Tx A) (snap : gmap DocRef Favorite) : A * TxState :=
  body snap {| reads := []; writes := [] |}.

(** Resolving the sentinel at commit time [now]. *)
Definition resolve (now : N) (d : FavoriteData) : Favorite :=
  match d_createdAt d with
  | serverTimestamp => {| coinId := d_coinId d; createdAt := now |}
  end.

Definition apply_write (now : N) (m : gmap DocRef Favorite) (w : WriteOp)
  : gmap DocRef Favorite :=
  match w with
  | WSet ref d => <[ref := resolve now d]> m
  | WDelete ref => delete ref m
  end.

(** Modelled from the spec: the commit is all-or-nothing, stamps every
    write of the transaction with the store's write time and moves the
    clock on, so that later commits get later timestamps. *)
Definition commit (ws : list WriteOp) (db : Firestore) : Firestore :=
  {| docs := foldl (apply_write (clock db)) (docs db) ws;
     clock := N.succ (clock db) |}.

(** Whether the store serves this request: [Throws] stands for the store
    being unreachable and for a transaction that exhausts its retries. *)
Inductive StoreReply := Succeeds | Throws.

(** Modelled from the spec: [db.runTransaction(body)] for a request that
    runs alone: the body runs on the current documents and its writes are
    committed, or the call throws and nothing is written. *)
Definition runTransaction {A} (store : StoreReply) (body : Tx A) (db : Firestore)
  : option A * Firestore :=
  match store with
  | Throws => (None, db)
  | Succeeds =>
      let '(a, st) := tx_run body (docs db) in (Some a, commit (writes st) db)
  end.

(** *** Queries *)

(** A document of a query result: its id and its fields. *)
Abbreviation QueryDocumentSnapshot := (string * Favorite)%type.

(** [.collection("users").doc(userId).collection("favorites")]: the
    documents below one user. *)
Definition collection_favorites (userId : string) (db : Firestore)
  : list QueryDocumentSnapshot :=
  (λ e : DocRef * Favorite, (e.1.2, e.2)) <$>
    filter (λ e : DocRef * Favorite, e.1.1 = userId) (map_to_list (docs db)).

(** The order of [orderBy("createdAt", "desc")]: later creation time
    first; documents with the same creation time by descending id. *)
Definition newer_first : relation QueryDocumentSnapshot := λ x y,
  (createdAt y.2 < createdAt x.2)%N ∨
  (createdAt x.2 = createdAt y.2 ∧ (y.1 ≤ x.1)%string).

Global Instance newer_first_dec : RelDecision newer_first.
Proof. intros x y. unfold newer_first. apply _. Defined.

Definition orderBy_createdAt_desc (l : list QueryDocumentSnapshot)
  : list QueryDocumentSnapshot :=
  merge_sort newer_first l.

(** Modelled from the spec: [query(collectionPath, orderBy)] returns the
    ordered documents, or throws when the store is unreachable. *)
Definition query_get (store : StoreReply) (userId : string) (db : Firestore)
  : option (list QueryDocumentSnapshot) :=
  match store with
  | Throws => None
  | Succeeds => Some (orderBy_createdAt_desc (collection_favorites userId db))
  end.

(** ** The handlers

    A handler's outcome is the response it sends, the store it leaves
    behind and the calls it made to its collaborators, in order. *)

Inductive Effect :=
| FetchCall (url : string)
| QueryCall (userId : string)
| TransactionCall (ref : DocRef).

Record Outcome := {
  response : Response;
  db_after : Firestore;
  effects : list Effect;
}.

(** [res.status(code).json({status, message, data})] *)
Definition reply (code : Z) (e : Envelope) (res : Response) : Response :=
  res_json e (res_status code res).

Definition markets_url (currency : string) : string :=
  "https://api.coingecko.com/api/v3/coins/markets?vs_currency=" +:+
  Js.encodeURIComponent currency.

Definition coin_url (id : string) : string :=
  "https://api.coingecko.com/api/v3/coins/" +:+ Js.encodeURIComponent id.

Definition getMarkets (fetch : string → FetchResult) (req : Request)
  : Response * list Effect :=
  let res := setCorsHeaders fresh_response in
  if decide (method req = "OPTIONS") then (res_send "" (res_status 204 res), [])
  else if decide (method req ≠ "GET") then
    (reply 405 {| e_status := 405; message := "Method Not Allowed"; data := DataNull |} res, [])
  else
    let rawCurrency := or_else (query req !! "currency") "usd" in
    let currency := Js.toLowerCase (to_String rawCurrency) in
    if negb (Js.test_class Js.cls_currency 2 10 currency) then
      (reply 400 {| e_status := 400; message := "Invalid currency parameter";
                    data := DataNull |} res, [])
    else
      let url := markets_url currency in
      let failed :=
        reply 500 {| e_status := 500; message := "Failed to fetch data";
                     data := DataNull |} res in
      (match fetch url with
       | FetchThrows => failed
       | FetchResolves response =>
           if negb (response_ok response) then
             match response_text response with
             | None => failed
             | Some text =>
                 reply (up_status response)
                   {| e_status := up_status response;
                      message := "Upstream CoinGecko error";
                      data := DataError text |} res
             end
           else
             match response_json response with
             | None => failed
             | Some data_ =>
                 reply 200 {| e_status := 200; message := "Markets fetched successfully";
                              data := DataMarkets data_ |} res
             end
       end, [FetchCall url]).

Definition getFavorites (store : StoreReply) (req : Request) (db : Firestore) : Outcome :=
  let res := setCorsHeaders fresh_response in
  if decide (method req = "OPTIONS") then
    {| response := res_send "" (res_status 204 res); db_after := db; effects := [] |}
  else if decide (method req ≠ "GET" ∧ method req ≠ "POST") then
    {| response := reply 405 {| e_status := 405; message := "Method Not Allowed";
                                data := DataNull |} res;
       db_after := db; effects := [] |}
  else
    let userIdRaw :=
      if decide (method req = "GET") then or_else (query req !! "userId") ""
      else or_else (default ∅ (body req) !! "userId") "" in
    let userId := Js.trim (to_String userIdRaw) in
    if negb (Js.nonEmpty userId) || negb (Js.test_class Js.cls_userId 3 128 userId) then
      {| response := reply 400 {| e_status := 400; message := "Invalid or missing 'userId'";
                                  data := DataNull |} res;
         db_after := db; effects := [] |}
    else
      match query_get store userId db with
      | Some favoritesSnap =>
          let favorites := fst <$> favoritesSnap in
          {| response := reply 200 {| e_status := 200;
                                      message := "Favorites fetched successfully";
                                      data := DataFavorites favorites |} res;
             db_after := db; effects := [QueryCall userId] |}
      | None =>
          {| response := reply 500 {| e_status := 500; message := "Failed to fetch favorites";
                                      data := DataNull |} res;
             db_after := db; effects := [QueryCall userId] |}
      end.

(** The body of the toggle transaction. *)
Definition toggleTx (ref : DocRef) (coinId : string) : Tx bool :=
  snap ← tx_get ref;
  if snap_exists snap then
    _ ← tx_delete ref; mret false
  else
    _ ← tx_set ref {| d_coinId := coinId; d_createdAt := serverTimestamp |}; mret true.

Definition toggleFavorite (store : StoreReply) (req : Request) (db : Firestore) : Outcome :=
  let res := setCorsHeaders fresh_response in
  if decide (method req = "OPTIONS") then
    {| response := res_send "" (res_status 204 res); db_after := db; effects := [] |}
  else if decide (method req ≠ "POST") then
    {| response := reply 405 {| e_status := 405; message := "Method Not Allowed";
                                data := DataNull |} res;
       db_after := db; effects := [] |}
  else
    let body := default ∅ (body req) in
    let userId := if_string (body !! "userId") Js.trim in
    let coinId := if_string (body !! "coinId") (λ s, Js.toLowerCase (Js.trim s)) in
    if negb (Js.nonEmpty userId) || negb (Js.test_class Js.cls_userId 3 128 userId) then
      {| response := reply 400 {| e_status := 400; message := "Invalid or missing 'userId'";
                                  data := DataNull |} res;
         db_after := db; effects := [] |}
    else if negb (Js.nonEmpty coinId) || negb (Js.test_class Js.cls_coinId 2 100 coinId) then
      {| response := reply 400 {| e_status := 400; message := "Invalid or missing 'coinId'";
                                  data := DataNull |} res;
         db_after := db; effects := [] |}
    else
      let ref := favoriteRef userId coinId in
      match runTransaction store (toggleTx ref coinId) db with
      | (Some favorited, db') =>
          {| response :=
               reply 200 {| e_status := 200;
                            message := if favorited then "Added to favorites"
                                       else "Removed from favorites";
                            data := DataFavorited favorited |} res;
             db_after := db'; effects := [TransactionCall ref] |}
      | (None, db') =>
          {| response := reply 500 {| e_status := 500; message := "Failed to toggle favorite";
                                      data := DataNull |} res;
             db_after := db'; effects := [TransactionCall ref] |}
      end.

Definition getCoin (fetch : string → FetchResult) (req : Request)
  : Response * list Effect :=
  let res := setCorsHeaders fresh_response in
  if decide (method req = "OPTIONS") then (res_send "" (res_status 204 res), [])
  else if decide (method req ≠ "POST") then
    (reply 405 {| e_status := 405; message := "Method Not Allowed"; data := DataNull |} res, [])
  else
    let body := default ∅ (body req) in
    let id := if_string (body !! "id") (λ s, Js.toLowerCase (Js.trim s)) in
    if negb (Js.nonEmpty id) || negb (Js.test_class Js.cls_coinId 2 100 id) then
      (reply 400 {| e_status := 400; message := "Invalid or missing 'id' in request body";
                    data := DataNull |} res, [])
    else
      let url := coin_url id in
      let failed :=
        reply 500 {| e_status := 500; message := "Failed to fetch data";
                     data := DataNull |} res in
      (match fetch url with
       | FetchThrows => failed
       | FetchResolves response =>
           if negb (response_ok response) then
             match response_text response with
             | None => failed
             | Some text =>
                 reply (up_status response)
                   {| e_status := up_status response;
                      message := "Upstream CoinGecko error";
                      data := DataError text |} res
             end
           else
             match response_json response with
             | None => failed
             | Some data_ =>
                 reply 200 {| e_status := 200; message := "Coin fetched successfully";
                              data := DataCoin data_ |} res
             end
       end, [FetchCall url]).

(** ** Sequences of requests

    The store starts empty; the requests that touch it are the toggle and
    the list requests, each with the environment's choice of whether the
    store serves it. *)

Definition empty_db : Firestore := {| docs := ∅; clock := 0 |}.

Inductive Operation :=
| OpToggle (store : StoreReply) (req : Request)
| OpList (store : StoreReply) (req : Request).

Definition run_op (op : Operation) (db : Firestore) : Outcome :=
  match op with
  | OpToggle store req => toggleFavorite store req db
  | OpList store req => getFavorites store req db
  end.

Definition run_ops (ops : list Operation) (db : Firestore) : Firestore :=
  foldl (λ db op, db_after (run_op op db)) db ops.

(** The Favorite entries of one user, as the store holds them. *)
Definition favoriteSet (userId : string) (db : Firestore) : list Favorite :=
  snd <$> collection_favorites userId db.

(** Every document sits under the reference its [coinId] field names. *)
Definition well_keyed (db : Firestore) : Prop :=
  ∀ userId id f, docs db !! (userId, id) = Some f → coinId f = id.

(** Requests as the clients build them. *)
Definition toggle_request (userId coinId : string) : Request :=
  {| method := "POST"; query := ∅;
     body := Some (<["userId" := JStr userId]> (<["coinId" := JStr coinId]> ∅)) |}.

Definition list_request (userId : string) : Request :=
  {| method := "GET"; query := <["userId" := JStr userId]> ∅; body := None |}.

Definition coin_request (id : string) : Request :=
  {| method := "POST"; query := ∅; body := Some (<["id" := JStr id]> ∅) |}.

Definition set_field (k : string) (v : JsVal) (req : Request) : Request :=
  {| method := method req; query := query req;
     body := Some (<[k := v]> (default ∅ (body req))) |}.

Definition set_query (k : string) (v : JsVal) (req : Request) : Request :=
  {| method := method req; query := <[k := v]> (query req); body := body req |}.

(** The [data] of the envelope a response carries. *)
Definition response_data (res : Response) : option Data :=
  match payload res with
  | Some (SentJson e) => Some (data e)
  | _ => None
  end.

(** The [favorited] flag of a toggle response. *)
Definition favorited_of (res : Response) : option bool :=
  match response_data res with
  | Some (DataFavorited b) => Some b
  | _ => None
  end.

(** ** Concurrent toggles

    Several toggle calls on one pair, in flight at once.  A call is
    waiting to start (or to retry), has run the transaction body on a
    snapshot and is waiting to commit, has returned its result, or has
    failed. *)

Inductive CallState :=
| Waiting
| Running (snap : gmap DocRef Favorite)
| Returned (favorited : bool)
| Failed.

Global Instance CallState_eq_dec : EqDecision CallState.
Proof. solve_decision. Defined.

Record Config := {
  c_db : Firestore;
  c_calls : list CallState;
}.

(** Modelled from the spec: the commit-time check of section 4.1
    ("read-validate-on-commit"): every document the transaction read is
    still what it read. *)
Definition validated (snap cur : gmap DocRef Favorite) (st : TxState) : Prop :=
  Forall (λ ref, cur !! ref = snap !! ref) (reads st).

(** Modelled from the spec: the isolation the store gives concurrent
    transactions (section 4.1, and section 9: "versioned read,
    conditional write, retry-on-conflict loop").  A call starts by
    taking a snapshot; the body [toggleTx] of the source runs on it; the
    commit goes through only if [validated], and then applies the body's
    writes at once; otherwise the call goes back to waiting and retries.
    A call that has not committed may give up (the store is unreachable,
    the retries are used up), which the handler answers with the 500
    envelope. *)
Inductive step (ref : DocRef) (coinId : string) : Config → Config → Prop :=
| step_begin i db calls :
    calls !! i = Some Waiting →
    step ref coinId {| c_db := db; c_calls := calls |}
      {| c_db := db; c_calls := <[i := Running (docs db)]> calls |}
| step_commit i db calls snap a st :
    calls !! i = Some (Running snap) →
    tx_run (toggleTx ref coinId) snap = (a, st) →
    validated snap (docs db) st →
    step ref coinId {| c_db := db; c_calls := calls |}
      {| c_db := commit (writes st) db; c_calls := <[i := Returned a]> calls |}
| step_conflict i db calls snap a st :
    calls !! i = Some (Running snap) →
    tx_run (toggleTx ref coinId) snap = (a, st) →
    ¬ validated snap (docs db) st →
    step ref coinId {| c_db := db; c_calls := calls |}
      {| c_db := db; c_calls := <[i := Waiting]> calls |}
| step_give_up i db calls c :
    calls !! i = Some c → (c = Waiting ∨ ∃ snap, c = Running snap) →
    step ref coinId {| c_db := db; c_calls := calls |}
      {| c_db := db; c_calls := <[i := Failed]> calls |}.

Definition initial (db : Firestore) (n : nat) : Config :=
  {| c_db := db; c_calls := replicate n Waiting |}.

(** How many calls have returned [favorited = b]. *)
Definition returned (b : bool) (cfg : Config) : nat :=
  length (filter (λ c, c = Returned b) (c_calls cfg)).

Definition committed (cfg : Config) : nat := returned true cfg + returned false cfg.

Definition all_returned (cfg : Config) : Prop :=
  Forall (λ c, ∃ b, c = Returned b) (c_calls cfg).

(** What holds of every configuration the calls can reach: the calls that
    returned [true] are as many as those that returned [false], plus one
    when the entry is present; nothing but the toggled reference changes;
    no call appears or disappears. *)
Definition toggle_inv (db0 : Firestore) (n : nat) (ref : DocRef) (cfg : Config) : Prop :=
  returned true cfg =
    returned false cfg + (if snap_exists (docs (c_db cfg) !! ref) then 1 else 0) ∧
  (∀ r, r ≠ ref → docs (c_db cfg) !! r = docs db0 !! r) ∧
  length (c_calls cfg) = n.

(** ** Vocabulary of the statements *)

(** The identifiers a request carries, as the handlers normalise them
    before validating: [toggleFavorite] trims the userId and trims and
    lower-cases the coinId; [getFavorites] reads the userId from the
    query (GET) or the body (POST) and trims it; [getCoin] trims and
    lower-cases the id; [getMarkets] defaults and lower-cases the
    currency. *)
Definition toggle_userId (req : Request) : string :=
  if_string (default ∅ (body req) !! "userId") Js.trim.

Definition toggle_coinId (req : Request) : string :=
  if_string (default ∅ (body req) !! "coinId") (λ s, Js.toLowerCase (Js.trim s)).

Definition list_userId (req : Request) : string :=
  Js.trim (to_String
    (if decide (method req = "GET") then or_else (query req !! "userId") ""
     else or_else (default ∅ (body req) !! "userId") "")).

Definition coin_id (req : Request) : string :=
  if_string (default ∅ (body req) !! "id") (λ s, Js.toLowerCase (Js.trim s)).

Definition markets_currency (req : Request) : string :=
  Js.toLowerCase (to_String (or_else (query req !! "currency") "usd")).

(** The upstream error body of the pass-through scenario: an object
    with the one field [error] holding [not found]. *)
Definition dquote : ascii := "034"%char.

Definition not_found_body : string :=
  "{" +:+ String dquote ("error" +:+ String dquote (":" +:+
    String dquote ("not found" +:+ String dquote "}"))).

(** The response every handler sends on its envelope paths: the CORS
    headers, the status code, and the envelope repeating that code. *)
Definition envelope_response (code : Z) (msg : string) (d : Data) : Response :=
  reply code {| e_status := code; message := msg; data := d |}
    (setCorsHeaders fresh_response).

(** ** Vocabulary of the further properties *)

(** A response on which the three headers of [setCorsHeaders] are set. *)
Definition has_cors_headers (res : Response) : Prop :=
  headers res !! "Access-Control-Allow-Origin" = Some "*" ∧
  headers res !! "Access-Control-Allow-Methods" = Some "GET, POST, OPTIONS" ∧
  headers res !! "Access-Control-Allow-Headers" = Some "Content-Type".

(** A response is either the bodiless 204 of the preflight or a JSON
    envelope whose [status] field repeats the HTTP status. *)
Definition well_formed (res : Response) : Prop :=
  (status res = 204%Z ∧ payload res = Some (Sent "")) ∨
  ∃ e, payload res = Some (SentJson e) ∧ e_status e = status res.

(** The listing [getFavorites] sends for a user: the ids of the ordered
    query result, [favoritesSnap.docs.map((d) => d.id)]. *)
Definition list_favorites (userId : string) (db : Firestore) : list string :=
  fst <$> orderBy_createdAt_desc (collection_favorites userId db).

(** Every stored timestamp was assigned before the current write time. *)
Definition stamped_before_clock (db : Firestore) : Prop :=
  ∀ ref f, docs db !! ref = Some f → (createdAt f < clock db)%N.

(** No two documents carry the same timestamp. *)
Definition distinct_stamps (db : Firestore) : Prop :=
  ∀ ref1 ref2 f1 f2,
    docs db !! ref1 = Some f1 → docs db !! ref2 = Some f2 →
    createdAt f1 = createdAt f2 → ref1 = ref2.

(** Every document sits under identifiers that pass the two patterns. *)
Definition keys_validated (db : Firestore) : Prop :=
  ∀ userId id f, docs db !! favoriteRef userId id = Some f →
    Js.test_class Js.cls_userId 3 128 userId = true ∧
    Js.test_class Js.cls_coinId 2 100 id = true.

(** The same toggle request served [n] times in a row, each time with a
    transaction that commits. *)
Definition toggle_times (n : nat) (req : Request) (db : Firestore) : Firestore :=
  Nat.iter n (λ db, db_after (toggleFavorite Succeeds req db)) db.

(** The answer to a preflight: [res.status(204).send("")]. *)
Definition preflight_response : Response :=
  res_send "" (res_status 204 (setCorsHeaders fresh_response)).

(** What a user is shown: the [data] of the answer to a list request. *)
Definition listing (userId : string) (db : Firestore) : option Data :=
  response_data (response (getFavorites Succeeds (list_request userId) db)).

(** A request with another body, or another query. *)
Definition with_body (b : option (gmap string JsVal)) (req : Request) : Request :=
  {| method := method req; query := query req; body := b |}.

Definition with_query (q : gmap string JsVal) (req : Request) : Request :=
  {| method := method req; query := q; body := body req |}.

(** * Properties *)

(** ** Strings *)

Section strings.
Import Js.

Lemma cls_coinId_userId c : cls_coinId c = true → cls_userId c = true.
Proof. destruct c as [[] [] [] [] [] [] [] []]; vm_compute; congruence. Qed.

Lemma cls_userId_not_space c : cls_userId c = true → isWhiteSpace c = false.
Proof. destruct c as [[] [] [] [] [] [] [] []]; vm_compute; congruence. Qed.

Lemma cls_coinId_lower c : cls_coinId c = true → toLowerChar c = c.
Proof. destruct c as [[] [] [] [] [] [] [] []]; vm_compute; congruence. Qed.

Lemma toLowerChar_idemp c : toLowerChar (toLowerChar c) = toLowerChar c.
Proof. destruct c as [[] [] [] [] [] [] [] []]; vm_compute; congruence. Qed.

Lemma all_impl (p q : ascii → bool) s :
  (∀ c, p c = true → q c = true) → all p s = true → all q s = true.
Proof.
  intros Hpq. induction s as [|c s IH]; simpl; [done|].
  rewrite !andb_true_iff. intros [Hc Hs]. auto.
Qed.

Lemma trimStart_id s :
  all (λ c, negb (isWhiteSpace c)) s = true → trimStart s = s.
Proof.
  destruct s as [|c s]; simpl; [done|].
  rewrite andb_true_iff, negb_true_iff. by intros [-> _].
Qed.

Lemma trimEnd_id s :
  all (λ c, negb (isWhiteSpace c)) s = true → trimEnd s = s.
Proof.
  induction s as [|c s IH]; simpl; [done|].
  rewrite andb_true_iff, negb_true_iff. intros [Hc Hs].
  rewrite (IH Hs), Hc. by destruct s.
Qed.

Lemma trim_id s : all cls_userId s = true → trim s = s.
Proof.
  intros Hs. assert (all (λ c, negb (isWhiteSpace c)) s = true) as Hns.
  { revert Hs. apply all_impl. intros c Hc. by rewrite (cls_userId_not_space c Hc). }
  unfold trim. by rewrite (trimStart_id s Hns), (trimEnd_id s Hns).
Qed.

Lemma toLowerCase_id s : all cls_coinId s = true → toLowerCase s = s.
Proof.
  induction s as [|c s IH]; simpl; [done|].
  rewrite andb_true_iff. intros [Hc Hs]. by rewrite (cls_coinId_lower c Hc), (IH Hs).
Qed.

Lemma toLowerCase_idemp s : toLowerCase (toLowerCase s) = toLowerCase s.
Proof. induction s as [|c s IH]; simpl; [done|]. by rewrite toLowerChar_idemp, IH. Qed.

Lemma toLowerCase_nonEmpty s : nonEmpty (toLowerCase s) = nonEmpty s.
Proof. by destruct s. Qed.

Lemma test_class_all cls lo hi s : test_class cls lo hi s = true → all cls s = true.
Proof. unfold test_class. rewrite !andb_true_iff. tauto. Qed.

Lemma test_class_nonEmpty cls lo hi s :
  0 < lo → test_class cls lo hi s = true → nonEmpty s = true.
Proof.
  unfold test_class. rewrite !andb_true_iff, !bool_decide_eq_true.
  intros Hlo [[Hlen _] _]. destruct s; simpl in *; [lia|done].
Qed.

(** A string that passes the userId pattern is its own trimmed form. *)
Lemma userId_normal s : test_class cls_userId 3 128 s = true → trim s = s.
Proof. intros Hs. apply trim_id. by apply test_class_all in Hs. Qed.

(** A string that passes the coinId pattern is its own trimmed,
    lower-cased form. *)
Lemma coinId_normal s :
  test_class cls_coinId 2 100 s = true → toLowerCase (trim s) = s.
Proof.
  intros Hs. apply test_class_all in Hs.
  rewrite trim_id by (revert Hs; apply all_impl, cls_coinId_userId).
  by apply toLowerCase_id.
Qed.

End strings.

(** ** The toggle transaction *)

Lemma tx_run_toggle ref c snap :
  tx_run (toggleTx ref c) snap =
    (negb (snap_exists (snap !! ref)),
     {| reads := [ref];
        writes := if snap_exists (snap !! ref) then [WDelete ref]
                  else [WSet ref {| d_coinId := c; d_createdAt := serverTimestamp |}] |}).
Proof.
  unfold tx_run, toggleTx, mbind, Tx_bind, tx_get. simpl.
  by destruct (snap !! ref).
Qed.

Lemma runTransaction_toggle ref c db :
  runTransaction Succeeds (toggleTx ref c) db =
    (Some (negb (snap_exists (docs db !! ref))),
     {| docs := match docs db !! ref with
                | Some _ => delete ref (docs db)
                | None => <[ref := {| coinId := c; createdAt := clock db |}]> (docs db)
                end;
        clock := N.succ (clock db) |}).
Proof.
  unfold runTransaction. rewrite tx_run_toggle. unfold commit. simpl.
  by destruct (docs db !! ref).
Qed.

Lemma runTransaction_throws {A} (body : Tx A) db :
  runTransaction Throws body db = (None, db).
Proof. done. Qed.

(** A well-formed POST request gets past validation to the transaction. *)
Lemma toggleFavorite_accepts store req db b u c :
  method req = "POST" → body req = Some b →
  b !! "userId" = Some (JStr u) → b !! "coinId" = Some (JStr c) →
  Js.test_class Js.cls_userId 3 128 (Js.trim u) = true →
  Js.test_class Js.cls_coinId 2 100 (Js.toLowerCase (Js.trim c)) = true →
  toggleFavorite store req db =
    let userId := Js.trim u in
    let coinId := Js.toLowerCase (Js.trim c) in
    let res := setCorsHeaders fresh_response in
    let ref := favoriteRef userId coinId in
    match runTransaction store (toggleTx ref coinId) db with
    | (Some favorited, db') =>
        {| response :=
             reply 200 {| e_status := 200;
                          message := if favorited then "Added to favorites"
                                     else "Removed from favorites";
                          data := DataFavorited favorited |} res;
           db_after := db'; effects := [TransactionCall ref] |}
    | (None, db') =>
        {| response := reply 500 {| e_status := 500; message := "Failed to toggle favorite";
                                    data := DataNull |} res;
           db_after := db'; effects := [TransactionCall ref] |}
    end.
Proof.
  intros Hm Hb Hu Hc Hvu Hvc. unfold toggleFavorite.
  rewrite Hm, Hb. simpl default. rewrite Hu, Hc. unfold if_string.
  rewrite (decide_False (P := "POST" = "OPTIONS")) by done.
  rewrite (decide_False (P := "POST" ≠ "POST")) by (intros ?; done).
  rewrite Hvu, Hvc.
  rewrite (test_class_nonEmpty _ 3 128 _ ltac:(lia) Hvu).
  rewrite (test_class_nonEmpty _ 2 100 _ ltac:(lia) Hvc).
  done.
Qed.

(** ** Toggle: result and state transition *)

(** C1. For a well-formed userId and coinId, a toggle whose transaction
    commits answers 200 with [favorited = true] exactly when no entry for
    the pair existed before the call, and the call then creates it with
    the store's write time as [createdAt]; it answers [favorited = false]
    exactly when an entry existed, and the call then deletes it. *)
Theorem toggle_reports_transition req db b u c :
  method req = "POST" → body req = Some b →
  b !! "userId" = Some (JStr u) → b !! "coinId" = Some (JStr c) →
  Js.test_class Js.cls_userId 3 128 u = true →
  Js.test_class Js.cls_coinId 2 100 c = true →
  let out := toggleFavorite Succeeds req db in
  let ref := favoriteRef u c in
  ∃ favorited : bool,
    response out =
      envelope_response 200
        (if favorited then "Added to favorites" else "Removed from favorites")
        (DataFavorited favorited) ∧
    (favorited = true ↔ docs db !! ref = None) ∧
    (favorited = false ↔ is_Some (docs db !! ref)) ∧
    (favorited = true →
       docs (db_after out) = <[ref := {| coinId := c; createdAt := clock db |}]> (docs db)) ∧
    (favorited = false → docs (db_after out) = delete ref (docs db)).
Proof.
  intros Hm Hb Hu Hc Hvu Hvc out ref. subst out.
  rewrite (toggleFavorite_accepts Succeeds req db b u c Hm Hb Hu Hc);
    [|by rewrite userId_normal|by rewrite coinId_normal].
  rewrite (userId_normal u Hvu), (coinId_normal c Hvc). cbv zeta.
  rewrite runTransaction_toggle. fold ref.
  exists (negb (snap_exists (docs db !! ref))). simpl.
  destruct (docs db !! ref) as [f|] eqn:Hf; simpl;
    (split; [done|]); repeat split; try done; try (by eauto);
    try (by intros [? ?]).
Qed.

Lemma toggle_reports_transition_witness :
  ∃ favorited : bool,
    response (toggleFavorite Succeeds (toggle_request "user1" "bitcoin") empty_db) =
      envelope_response 200
        (if favorited then "Added to favorites" else "Removed from favorites")
        (DataFavorited favorited) ∧
    (favorited = true ↔ docs empty_db !! favoriteRef "user1" "bitcoin" = None) ∧
    (favorited = false ↔ is_Some (docs empty_db !! favoriteRef "user1" "bitcoin")) ∧
    (favorited = true →
       docs (db_after (toggleFavorite Succeeds (toggle_request "user1" "bitcoin") empty_db)) =
       <[favoriteRef "user1" "bitcoin" := {| coinId := "bitcoin"; createdAt := clock empty_db |}]>
         (docs empty_db)) ∧
    (favorited = false →
       docs (db_after (toggleFavorite Succeeds (toggle_request "user1" "bitcoin") empty_db)) =
       delete (favoriteRef "user1" "bitcoin") (docs empty_db)).
Proof.
  apply (toggle_reports_transition (toggle_request "user1" "bitcoin") empty_db
           (<["userId" := JStr "user1"]> (<["coinId" := JStr "bitcoin"]> ∅))
           "user1" "bitcoin"); reflexivity.
Defined.

(** ** Toggle: failure of the store *)

Lemma toggleFavorite_throws_db req db :
  db_after (toggleFavorite Throws req db) = db.
Proof.
  unfold toggleFavorite. repeat case_decide; try done.
  repeat (match goal with |- context [if ?b then _ else _] => destruct b end; try done).
Qed.

(** C7. When the store is unavailable or the transaction fails, the
    toggle call that reached the store answers with the generic 500
    envelope, and the store is exactly as it was before the call. *)
Theorem toggle_failure_atomic req db ref :
  TransactionCall ref ∈ effects (toggleFavorite Throws req db) →
  response (toggleFavorite Throws req db) =
    envelope_response 500 "Failed to toggle favorite" DataNull ∧
  db_after (toggleFavorite Throws req db) = db.
Proof.
  intros Hcall. split; [|apply toggleFavorite_throws_db].
  revert Hcall. unfold toggleFavorite.
  repeat case_decide; simpl; try (by intros ?%elem_of_nil).
  repeat (match goal with |- context [if ?b then _ else _] => destruct b end;
          simpl; try (by intros ?%elem_of_nil)).
  done.
Qed.

Lemma toggle_failure_atomic_witness :
  response (toggleFavorite Throws (toggle_request "user1" "bitcoin") empty_db) =
    envelope_response 500 "Failed to toggle favorite" DataNull ∧
  db_after (toggleFavorite Throws (toggle_request "user1" "bitcoin") empty_db) = empty_db.
Proof.
  apply (toggle_failure_atomic (toggle_request "user1" "bitcoin") empty_db
           (favoriteRef "user1" "bitcoin")).
  vm_compute. apply list_elem_of_here.
Defined.

(** ** A committed toggle *)

(** The outcome of a well-formed toggle whose transaction commits. *)
Lemma toggleFavorite_commits req db b u c :
  method req = "POST" → body req = Some b →
  b !! "userId" = Some (JStr u) → b !! "coinId" = Some (JStr c) →
  Js.test_class Js.cls_userId 3 128 u = true →
  Js.test_class Js.cls_coinId 2 100 c = true →
  toggleFavorite Succeeds req db =
    let ref := favoriteRef u c in
    let favorited := negb (snap_exists (docs db !! ref)) in
    {| response :=
         envelope_response 200
           (if favorited then "Added to favorites" else "Removed from favorites")
           (DataFavorited favorited);
       db_after :=
         {| docs := match docs db !! ref with
                    | Some _ => delete ref (docs db)
                    | None => <[ref := {| coinId := c; createdAt := clock db |}]> (docs db)
                    end;
            clock := N.succ (clock db) |};
       effects := [TransactionCall ref] |}.
Proof.
  intros Hm Hb Hu Hc Hvu Hvc.
  rewrite (toggleFavorite_accepts Succeeds req db b u c Hm Hb Hu Hc);
    [|by rewrite userId_normal|by rewrite coinId_normal].
  rewrite (userId_normal u Hvu), (coinId_normal c Hvc). cbv zeta.
  by rewrite runTransaction_toggle.
Qed.

(** ** Validation comes before the store *)

Lemma toggleFavorite_rejects store req db :
  Js.test_class Js.cls_userId 3 128 (toggle_userId req) = false ∨
  Js.test_class Js.cls_coinId 2 100 (toggle_coinId req) = false →
  effects (toggleFavorite store req db) = [] ∧
  db_after (toggleFavorite store req db) = db ∧
  (method req = "POST" →
   ∃ msg, response (toggleFavorite store req db) = envelope_response 400 msg DataNull).
Proof.
  intros Hbad. unfold toggleFavorite.
  fold (toggle_userId req). fold (toggle_coinId req).
  case_decide as Hopt; [by rewrite Hopt|].
  case_decide as Hpost; [done|].
  destruct (negb (Js.nonEmpty (toggle_userId req))
            || negb (Js.test_class Js.cls_userId 3 128 (toggle_userId req))) eqn:Hu.
  { simpl. eauto. }
  destruct (negb (Js.nonEmpty (toggle_coinId req))
            || negb (Js.test_class Js.cls_coinId 2 100 (toggle_coinId req))) eqn:Hc.
  { simpl. eauto. }
  exfalso. destruct Hbad as [Hbad|Hbad].
  - by rewrite Hbad, orb_true_r in Hu.
  - by rewrite Hbad, orb_true_r in Hc.
Qed.

Lemma getFavorites_rejects store req db :
  Js.test_class Js.cls_userId 3 128 (list_userId req) = false →
  effects (getFavorites store req db) = [] ∧
  db_after (getFavorites store req db) = db ∧
  (method req = "GET" ∨ method req = "POST" →
   response (getFavorites store req db) =
     envelope_response 400 "Invalid or missing 'userId'" DataNull).
Proof.
  intros Hbad. unfold getFavorites. fold (list_userId req).
  case_decide as Hopt; [by rewrite Hopt; split; [|split; [|intros [|]]]|].
  case_decide as Hm; [split; [done|split; [done|]]; intros [|]; tauto|].
  by rewrite Hbad, orb_true_r.
Qed.

(** C6, as the code has it. The handlers normalise the identifiers
    first (trim the userId; trim and lower-case the coinId).  A request
    whose normalised userId or coinId fails its pattern never reaches the
    store: no query, no transaction, the store unchanged; and when it
    came with an accepted method it is answered with a 400 envelope. *)
Theorem malformed_rejected_before_store store req db :
  (Js.test_class Js.cls_userId 3 128 (toggle_userId req) = false ∨
   Js.test_class Js.cls_coinId 2 100 (toggle_coinId req) = false →
   effects (toggleFavorite store req db) = [] ∧
   db_after (toggleFavorite store req db) = db ∧
   (method req = "POST" →
    ∃ msg, response (toggleFavorite store req db) = envelope_response 400 msg DataNull)) ∧
  (Js.test_class Js.cls_userId 3 128 (list_userId req) = false →
   effects (getFavorites store req db) = [] ∧
   db_after (getFavorites store req db) = db ∧
   (method req = "GET" ∨ method req = "POST" →
    response (getFavorites store req db) =
      envelope_response 400 "Invalid or missing 'userId'" DataNull)).
Proof. split; [apply toggleFavorite_rejects|apply getFavorites_rejects]. Qed.

Lemma malformed_rejected_before_store_witness :
  (effects (toggleFavorite Succeeds (toggle_request "user1" "AB!") empty_db) = [] ∧
   db_after (toggleFavorite Succeeds (toggle_request "user1" "AB!") empty_db) = empty_db ∧
   ∃ msg, response (toggleFavorite Succeeds (toggle_request "user1" "AB!") empty_db) =
            envelope_response 400 msg DataNull) ∧
  (effects (toggleFavorite Succeeds (toggle_request "" "bitcoin") empty_db) = [] ∧
   db_after (toggleFavorite Succeeds (toggle_request "" "bitcoin") empty_db) = empty_db ∧
   ∃ msg, response (toggleFavorite Succeeds (toggle_request "" "bitcoin") empty_db) =
            envelope_response 400 msg DataNull) ∧
  (effects (getFavorites Succeeds (list_request "") empty_db) = [] ∧
   db_after (getFavorites Succeeds (list_request "") empty_db) = empty_db ∧
   response (getFavorites Succeeds (list_request "") empty_db) =
     envelope_response 400 "Invalid or missing 'userId'" DataNull).
Proof.
  split; [|split].
  - destruct (malformed_rejected_before_store Succeeds (toggle_request "user1" "AB!") empty_db)
      as [Ht _].
    destruct Ht as (He & Hd & Hr); [right; reflexivity|].
    split; [exact He|]. split; [exact Hd|]. apply Hr. reflexivity.
  - destruct (malformed_rejected_before_store Succeeds (toggle_request "" "bitcoin") empty_db)
      as [Ht _].
    destruct Ht as (He & Hd & Hr); [left; reflexivity|].
    split; [exact He|]. split; [exact Hd|]. apply Hr. reflexivity.
  - destruct (malformed_rejected_before_store Succeeds (list_request "") empty_db)
      as [_ Hl].
    destruct Hl as (He & Hd & Hr); [reflexivity|].
    split; [exact He|]. split; [exact Hd|]. apply Hr. left. reflexivity.
Defined.

(** C6, as the claim has it, fails: ["Bitcoin"] does not match the
    lower-case coinId pattern, yet the request is accepted and the store
    is written. *)
Lemma malformed_rejected_counterexample :
  let req := toggle_request "user1" "Bitcoin" in
  Js.test_class Js.cls_coinId 2 100 "Bitcoin" = false ∧
  status (response (toggleFavorite Succeeds req empty_db)) = 200%Z ∧
  effects (toggleFavorite Succeeds req empty_db) =
    [TransactionCall (favoriteRef "user1" "bitcoin")] ∧
  docs (db_after (toggleFavorite Succeeds req empty_db)) !! favoriteRef "user1" "bitcoin" =
    Some {| coinId := "bitcoin"; createdAt := 0 |}.
Proof. cbv zeta. repeat split; vm_compute; reflexivity. Qed.

(** ** Normalisation of the coin identifier *)

Lemma toggle_coinId_set_field s req :
  toggle_coinId (set_field "coinId" (JStr s) req) = Js.toLowerCase (Js.trim s).
Proof. unfold toggle_coinId, set_field. simpl. by rewrite lookup_insert_eq. Qed.

Lemma toggle_userId_set_field s req :
  toggle_userId (set_field "coinId" (JStr s) req) = toggle_userId req.
Proof. unfold toggle_userId, set_field. simpl. by rewrite lookup_insert_ne. Qed.

Lemma coin_id_set_field s req :
  coin_id (set_field "id" (JStr s) req) = Js.toLowerCase (Js.trim s).
Proof. unfold coin_id, set_field. simpl. by rewrite lookup_insert_eq. Qed.

(** The toggle handler reads its request through the method and the two
    normalised identifiers only. *)
Lemma toggleFavorite_ext store req1 req2 db :
  method req1 = method req2 →
  toggle_userId req1 = toggle_userId req2 →
  toggle_coinId req1 = toggle_coinId req2 →
  toggleFavorite store req1 db = toggleFavorite store req2 db.
Proof.
  intros Hm Hu Hc. unfold toggleFavorite.
  fold (toggle_userId req1) (toggle_coinId req1) (toggle_userId req2) (toggle_coinId req2).
  by rewrite Hm, Hu, Hc.
Qed.

Lemma getCoin_ext fetch req1 req2 :
  method req1 = method req2 → coin_id req1 = coin_id req2 →
  getCoin fetch req1 = getCoin fetch req2.
Proof.
  intros Hm Hi. unfold getCoin. fold (coin_id req1) (coin_id req2).
  by rewrite Hm, Hi.
Qed.

(** C9. The toggle and the coin-detail handlers trim and lower-case the
    coinId before validating it: when the trimmed lower-case form of [s]
    matches the coinId pattern, the handler does on [s] what it does on
    that form, and the request gets past validation (the transaction on
    the lower-case entry is started, the lower-case coin is fetched). *)
Theorem coinId_normalised_before_validation store fetch req db s :
  Js.test_class Js.cls_coinId 2 100 (Js.toLowerCase (Js.trim s)) = true →
  let n := Js.toLowerCase (Js.trim s) in
  toggleFavorite store (set_field "coinId" (JStr s) req) db =
    toggleFavorite store (set_field "coinId" (JStr n) req) db ∧
  getCoin fetch (set_field "id" (JStr s) req) =
    getCoin fetch (set_field "id" (JStr n) req) ∧
  (method req = "POST" →
   Js.test_class Js.cls_userId 3 128 (toggle_userId req) = true →
   effects (toggleFavorite store (set_field "coinId" (JStr s) req) db) =
     [TransactionCall (favoriteRef (toggle_userId req) n)]) ∧
  (method req = "POST" →
   (getCoin fetch (set_field "id" (JStr s) req)).2 = [FetchCall (coin_url n)]).
Proof.
  intros Hn n. subst n. split; [|split; [|split]].
  - apply toggleFavorite_ext; [done|by rewrite !toggle_userId_set_field|].
    by rewrite !toggle_coinId_set_field, (coinId_normal _ Hn).
  - apply getCoin_ext; [done|].
    by rewrite !coin_id_set_field, (coinId_normal _ Hn).
  - intros Hm Hu. unfold toggleFavorite.
    fold (toggle_userId (set_field "coinId" (JStr s) req)).
    fold (toggle_coinId (set_field "coinId" (JStr s) req)).
    rewrite toggle_userId_set_field, toggle_coinId_set_field.
    change (method (set_field "coinId" (JStr s) req)) with (method req).
    rewrite Hm, Hu, Hn.
    rewrite (test_class_nonEmpty _ 3 128 _ ltac:(lia) Hu).
    rewrite (test_class_nonEmpty _ 2 100 _ ltac:(lia) Hn).
    rewrite (decide_False (P := "POST" = "OPTIONS")) by done.
    rewrite (decide_False (P := "POST" ≠ "POST")) by (intros ?; done).
    simpl. by destruct (runTransaction _ _ _) as [[?|] ?].
  - intros Hm. unfold getCoin.
    fold (coin_id (set_field "id" (JStr s) req)). rewrite coin_id_set_field.
    change (method (set_field "id" (JStr s) req)) with (method req).
    rewrite Hm, Hn. rewrite (test_class_nonEmpty _ 2 100 _ ltac:(lia) Hn).
    rewrite (decide_False (P := "POST" = "OPTIONS")) by done.
    rewrite (decide_False (P := "POST" ≠ "POST")) by (intros ?; done).
    done.
Qed.

Lemma coinId_normalised_before_validation_witness :
  let req := toggle_request "user1" "x" in
  toggleFavorite Succeeds (set_field "coinId" (JStr " Bitcoin ") req) empty_db =
    toggleFavorite Succeeds (set_field "coinId" (JStr "bitcoin") req) empty_db ∧
  effects (toggleFavorite Succeeds (set_field "coinId" (JStr " Bitcoin ") req) empty_db) =
    [TransactionCall (favoriteRef "user1" "bitcoin")].
Proof.
  cbv zeta.
  destruct (coinId_normalised_before_validation Succeeds (λ _, FetchThrows)
              (toggle_request "user1" "x") empty_db " Bitcoin ")
    as (Ht & _ & He & _); [reflexivity|].
  split; [exact Ht|]. apply He; reflexivity.
Defined.

(** ** The proxies *)

Lemma getMarkets_ext fetch req1 req2 :
  method req1 = method req2 → markets_currency req1 = markets_currency req2 →
  getMarkets fetch req1 = getMarkets fetch req2.
Proof.
  intros Hm Hc. unfold getMarkets. fold (markets_currency req1) (markets_currency req2).
  by rewrite Hm, Hc.
Qed.

(** What [getMarkets] does with a GET request, by its currency. *)
Lemma getMarkets_get fetch req :
  method req = "GET" →
  getMarkets fetch req =
    if Js.test_class Js.cls_currency 2 10 (markets_currency req) then
      ((getMarkets fetch req).1, [FetchCall (markets_url (markets_currency req))])
    else (envelope_response 400 "Invalid currency parameter" DataNull, []).
Proof.
  intros Hm. unfold getMarkets. fold (markets_currency req). rewrite Hm.
  rewrite (decide_False (P := "GET" = "OPTIONS")) by done.
  rewrite (decide_False (P := "GET" ≠ "GET")) by (intros ?; done).
  by destruct (Js.test_class Js.cls_currency 2 10 (markets_currency req)).
Qed.

(** C8. When the upstream API answers a proxy request with a non-success
    status and a body, the handler responds with that status and puts
    the upstream body, as it is, in [data.error]: for the coin detail (a
    POST whose id passes validation) and for the market list (a GET
    whose currency passes validation) alike; the upstream is called
    once, at the URL of the validated value. *)
Theorem upstream_error_passthrough fetch req r text :
  response_ok r = false → response_text r = Some text →
  (method req = "POST" →
   Js.test_class Js.cls_coinId 2 100 (coin_id req) = true →
   fetch (coin_url (coin_id req)) = FetchResolves r →
   getCoin fetch req =
     (envelope_response (up_status r) "Upstream CoinGecko error" (DataError text),
      [FetchCall (coin_url (coin_id req))])) ∧
  (method req = "GET" →
   Js.test_class Js.cls_currency 2 10 (markets_currency req) = true →
   fetch (markets_url (markets_currency req)) = FetchResolves r →
   getMarkets fetch req =
     (envelope_response (up_status r) "Upstream CoinGecko error" (DataError text),
      [FetchCall (markets_url (markets_currency req))])).
Proof.
  intros Hok Htext. split.
  - intros Hm Hv Hf. unfold getCoin. fold (coin_id req). rewrite Hm, Hv.
    rewrite (test_class_nonEmpty _ 2 100 _ ltac:(lia) Hv).
    rewrite (decide_False (P := "POST" = "OPTIONS")) by done.
    rewrite (decide_False (P := "POST" ≠ "POST")) by (intros ?; done).
    simpl. by rewrite Hf, Hok, Htext.
  - intros Hm Hv Hf. unfold getMarkets. fold (markets_currency req). rewrite Hm, Hv.
    rewrite (decide_False (P := "GET" = "OPTIONS")) by done.
    rewrite (decide_False (P := "GET" ≠ "GET")) by (intros ?; done).
    simpl. by rewrite Hf, Hok, Htext.
Qed.

Lemma upstream_error_passthrough_witness :
  let fetch := λ _ : string,
    FetchResolves {| up_status := 404; up_body := Some not_found_body;
                     up_parses := true |} in
  getCoin fetch (coin_request "bitcoin") =
    (envelope_response 404 "Upstream CoinGecko error" (DataError not_found_body),
     [FetchCall "https://api.coingecko.com/api/v3/coins/bitcoin"]) ∧
  status (getCoin fetch (coin_request "bitcoin")).1 = 404%Z ∧
  response_data (getCoin fetch (coin_request "bitcoin")).1 =
    Some (DataError not_found_body) ∧
  getMarkets fetch {| method := "GET"; query := <["currency" := JStr "EUR"]> ∅;
                      body := None |} =
    (envelope_response 404 "Upstream CoinGecko error" (DataError not_found_body),
     [FetchCall "https://api.coingecko.com/api/v3/coins/markets?vs_currency=eur"]).
Proof.
  cbv zeta.
  destruct (upstream_error_passthrough
              (λ _, FetchResolves {| up_status := 404; up_body := Some not_found_body;
                                     up_parses := true |})
              (coin_request "bitcoin")
              {| up_status := 404; up_body := Some not_found_body; up_parses := true |}
              not_found_body eq_refl eq_refl) as [Hc _].
  destruct (upstream_error_passthrough
              (λ _, FetchResolves {| up_status := 404; up_body := Some not_found_body;
                                     up_parses := true |})
              {| method := "GET"; query := <["currency" := JStr "EUR"]> ∅; body := None |}
              {| up_status := 404; up_body := Some not_found_body; up_parses := true |}
              not_found_body eq_refl eq_refl) as [_ Hm].
  split; [exact (Hc eq_refl eq_refl eq_refl)|].
  rewrite (Hc eq_refl eq_refl eq_refl).
  split; [reflexivity|]. split; [reflexivity|].
  exact (Hm eq_refl eq_refl eq_refl).
Defined.

(** C10. A GET request to the market list whose [currency] parameter is
    absent or empty is not rejected: it is handled as the request with
    [currency = usd], and the usd markets are fetched.  A supplied value
    is lower-cased before it is validated against the pattern of two to
    ten lower-case letters. *)
Theorem markets_currency_default fetch req :
  method req = "GET" →
  (query req !! "currency" = None ∨ query req !! "currency" = Some (JStr "") →
   getMarkets fetch req = getMarkets fetch (set_query "currency" (JStr "usd") req) ∧
   (getMarkets fetch req).2 = [FetchCall (markets_url "usd")]) ∧
  (∀ s, query req !! "currency" = Some (JStr s) → s ≠ "" →
   getMarkets fetch req =
     getMarkets fetch (set_query "currency" (JStr (Js.toLowerCase s)) req) ∧
   if Js.test_class Js.cls_currency 2 10 (Js.toLowerCase s)
   then (getMarkets fetch req).2 = [FetchCall (markets_url (Js.toLowerCase s))]
   else getMarkets fetch req =
          (envelope_response 400 "Invalid currency parameter" DataNull, [])).
Proof.
  intros Hm. split.
  - intros Habsent.
    assert (markets_currency req = "usd") as Hcur.
    { unfold markets_currency. by destruct Habsent as [-> | ->]. }
    split.
    + apply getMarkets_ext; [done|]. rewrite Hcur.
      unfold markets_currency, set_query. simpl. by rewrite lookup_insert_eq.
    + rewrite (getMarkets_get fetch req Hm), Hcur. done.
  - intros s Hs Hne.
    assert (markets_currency req = Js.toLowerCase s) as Hcur.
    { unfold markets_currency. rewrite Hs. by destruct s. }
    split.
    + apply getMarkets_ext; [done|]. rewrite Hcur.
      unfold markets_currency, set_query. simpl. rewrite lookup_insert_eq.
      destruct s as [|c s]; [done|]. simpl. by rewrite toLowerChar_idemp, toLowerCase_idemp.
    + rewrite (getMarkets_get fetch req Hm), Hcur.
      by destruct (Js.test_class Js.cls_currency 2 10 (Js.toLowerCase s)).
Qed.

Lemma markets_currency_default_witness :
  let req := {| method := "GET"; query := ∅; body := None |} in
  getMarkets (λ _, FetchThrows) req =
    getMarkets (λ _, FetchThrows) (set_query "currency" (JStr "usd") req) ∧
  (getMarkets (λ _, FetchThrows) req).2 = [FetchCall (markets_url "usd")].
Proof.
  cbv zeta.
  destruct (markets_currency_default (λ _, FetchThrows)
              {| method := "GET"; query := ∅; body := None |} eq_refl) as [Hd _].
  apply Hd. left. reflexivity.
Defined.

(** ** The documents of one user *)

Lemma elem_of_collection_favorites userId db id f :
  (id, f) ∈ collection_favorites userId db ↔ docs db !! (userId, id) = Some f.
Proof.
  unfold collection_favorites. rewrite list_elem_of_fmap. split.
  - intros ([[u c] g] & [= -> ->] & Hin). apply list_elem_of_filter in Hin as [Hu Hin].
    simpl in Hu. subst u. by apply elem_of_map_to_list in Hin.
  - intros Hf. exists ((userId, id), f). split; [done|].
    apply list_elem_of_filter. split; [done|]. by apply elem_of_map_to_list.
Qed.

Lemma NoDup_collection_favorites userId db :
  NoDup (fst <$> collection_favorites userId db).
Proof.
  unfold collection_favorites. rewrite <-list_fmap_compose.
  apply NoDup_fmap_2_strong; [|apply NoDup_filter, NoDup_map_to_list].
  intros [[u1 c1] f1] [[u2 c2] f2] [Hu1 H1]%list_elem_of_filter [Hu2 H2]%list_elem_of_filter.
  simpl in *. intros ->. subst u1 u2.
  apply elem_of_map_to_list in H1, H2. congruence.
Qed.

Lemma collection_favorites_empty userId db :
  (∀ id, docs db !! (userId, id) = None) → collection_favorites userId db = [].
Proof.
  intros Hnone. apply elem_of_nil_inv. intros [id f] Hin.
  apply elem_of_collection_favorites in Hin. by rewrite Hnone in Hin.
Qed.

(** ** The order of a listing *)

Global Instance newer_first_total : Total newer_first.
Proof.
  intros [c1 f1] [c2 f2]. unfold newer_first. simpl.
  destruct (N.lt_trichotomy (createdAt f1) (createdAt f2)) as [?|[Heq|?]]; [by auto..| |by auto].
  destruct (total String.le c1 c2); [right|left]; right; by auto.
Qed.

Global Instance newer_first_trans : Transitive newer_first.
Proof.
  intros [c1 f1] [c2 f2] [c3 f3]. unfold newer_first. simpl.
  intros [H12|[E12 L12]] [H23|[E23 L23]].
  - left. lia.
  - left. lia.
  - left. lia.
  - right. split; [congruence|]. by etrans.
Qed.

Lemma newer_first_createdAt x y : newer_first x y → (createdAt y.2 ≤ createdAt x.2)%N.
Proof. unfold newer_first. intros [?|[? _]]; lia. Qed.

Lemma StronglySorted_lookup_lt {A} (R : relation A) l i j x y :
  StronglySorted R l → i < j → l !! i = Some x → l !! j = Some y → R x y.
Proof.
  intros Hs. revert i j. induction Hs as [|a l Hs IH Hall]; intros i j Hij Hi Hj; [done|].
  destruct j as [|j]; [lia|]. simpl in Hj.
  destruct i as [|i]; simpl in Hi.
  - simplify_eq. rewrite Forall_forall in Hall. eapply Hall, list_elem_of_lookup_2, Hj.
  - eapply IH; [|done..]. lia.
Qed.

Lemma orderBy_sorted l : StronglySorted newer_first (orderBy_createdAt_desc l).
Proof. apply StronglySorted_merge_sort; apply _. Qed.

Lemma orderBy_perm l : orderBy_createdAt_desc l ≡ₚ l.
Proof. apply merge_sort_Permutation. Qed.

(** Sorting a list that is, up to order, a strictly descending one gives
    that descending list. *)
Lemma orderBy_unique l k :
  l ≡ₚ k → StronglySorted (λ x y, (createdAt y.2 < createdAt x.2)%N) k →
  orderBy_createdAt_desc l = k.
Proof.
  intros Hperm Hk.
  assert (StronglySorted newer_first k) as Hk'.
  { clear Hperm. induction Hk as [|a k Hk IH Hall]; constructor; [done|].
    eapply Forall_impl; [exact Hall|]. intros y Hy. by left. }
  apply (StronglySorted_unique_strong newer_first);
    [|apply orderBy_sorted|done|by rewrite orderBy_perm].
  intros x1 x2 Hx1 Hx2 H12 H21.
  rewrite orderBy_perm, Hperm in Hx1.
  apply newer_first_createdAt in H12, H21.
  assert (createdAt x1.2 = createdAt x2.2) as Heq by lia.
  clear H12 H21 Hk' Hperm.
  induction Hk as [|a k Hk IH Hall]; [by apply elem_of_nil in Hx1|].
  rewrite Forall_forall in Hall.
  apply elem_of_cons in Hx1 as [->|Hx1], Hx2 as [->|Hx2]; [done| | |by apply IH].
  - specialize (Hall _ Hx2). lia.
  - specialize (Hall _ Hx1). lia.
Qed.

(** ** Listing *)

Lemma getFavorites_accepts req db u :
  method req = "GET" ∨ method req = "POST" →
  list_userId req = u →
  Js.test_class Js.cls_userId 3 128 u = true →
  getFavorites Succeeds req db =
    {| response :=
         envelope_response 200 "Favorites fetched successfully"
           (DataFavorites (fst <$> orderBy_createdAt_desc (collection_favorites u db)));
       db_after := db; effects := [QueryCall u] |}.
Proof.
  intros Hm Hu Hv. unfold getFavorites. fold (list_userId req). rewrite Hu, Hv.
  rewrite (test_class_nonEmpty _ 3 128 _ ltac:(lia) Hv).
  destruct Hm as [Hm|Hm]; rewrite Hm.
  - rewrite (decide_False (P := "GET" = "OPTIONS")) by done.
    rewrite (decide_False (P := "GET" ≠ "GET" ∧ _)) by (by intros [? _]).
    done.
  - rewrite (decide_False (P := "POST" = "OPTIONS")) by done.
    rewrite (decide_False (P := _ ∧ "POST" ≠ "POST")) by (by intros [_ ?]).
    done.
Qed.

Lemma toggle_request_commits u c db :
  Js.test_class Js.cls_userId 3 128 u = true →
  Js.test_class Js.cls_coinId 2 100 c = true →
  db_after (toggleFavorite Succeeds (toggle_request u c) db) =
    {| docs := match docs db !! favoriteRef u c with
               | Some _ => delete (favoriteRef u c) (docs db)
               | None => <[favoriteRef u c := {| coinId := c; createdAt := clock db |}]> (docs db)
               end;
       clock := N.succ (clock db) |}.
Proof.
  intros Hu Hc.
  rewrite (toggleFavorite_commits (toggle_request u c) db
             (<["userId" := JStr u]> (<["coinId" := JStr c]> ∅)) u c); done.
Qed.

(** Adding three distinct coins to a user without favourites. *)
Lemma three_adds_docs u c1 c2 c3 db :
  Js.test_class Js.cls_userId 3 128 u = true →
  Js.test_class Js.cls_coinId 2 100 c1 = true →
  Js.test_class Js.cls_coinId 2 100 c2 = true →
  Js.test_class Js.cls_coinId 2 100 c3 = true →
  c1 ≠ c2 → c1 ≠ c3 → c2 ≠ c3 →
  (∀ c, docs db !! favoriteRef u c = None) →
  docs (run_ops [OpToggle Succeeds (toggle_request u c1);
                 OpToggle Succeeds (toggle_request u c2);
                 OpToggle Succeeds (toggle_request u c3)] db) =
    <[favoriteRef u c3 := {| coinId := c3; createdAt := N.succ (N.succ (clock db)) |}]>
      (<[favoriteRef u c2 := {| coinId := c2; createdAt := N.succ (clock db) |}]>
         (<[favoriteRef u c1 := {| coinId := c1; createdAt := clock db |}]> (docs db))).
Proof.
  intros Hu H1 H2 H3 H12 H13 H23 Hnone. unfold run_ops, run_op, favoriteRef in *. simpl.
  rewrite (toggle_request_commits u c1 db Hu H1). unfold favoriteRef. rewrite Hnone.
  rewrite (toggle_request_commits u c2 _ Hu H2). unfold favoriteRef. simpl.
  rewrite lookup_insert_ne, Hnone by congruence.
  rewrite (toggle_request_commits u c3 _ Hu H3). unfold favoriteRef. simpl.
  rewrite !lookup_insert_ne, Hnone by congruence.
  done.
Qed.

Lemma three_adds_listing u c1 c2 c3 db :
  Js.test_class Js.cls_userId 3 128 u = true →
  Js.test_class Js.cls_coinId 2 100 c1 = true →
  Js.test_class Js.cls_coinId 2 100 c2 = true →
  Js.test_class Js.cls_coinId 2 100 c3 = true →
  c1 ≠ c2 → c1 ≠ c3 → c2 ≠ c3 →
  (∀ c, docs db !! favoriteRef u c = None) →
  fst <$> orderBy_createdAt_desc
            (collection_favorites u
               (run_ops [OpToggle Succeeds (toggle_request u c1);
                         OpToggle Succeeds (toggle_request u c2);
                         OpToggle Succeeds (toggle_request u c3)] db)) = [c3; c2; c1].
Proof.
  intros Hu Hv1 Hv2 Hv3 Hne12 Hne13 Hne23 Hnone.
  pose proof (three_adds_docs u c1 c2 c3 db Hu Hv1 Hv2 Hv3 Hne12 Hne13 Hne23 Hnone) as Hdocs.
  set (db3 := run_ops _ db) in *.
  set (f1 := {| coinId := c1; createdAt := clock db |}) in *.
  set (f2 := {| coinId := c2; createdAt := N.succ (clock db) |}) in *.
  set (f3 := {| coinId := c3; createdAt := N.succ (N.succ (clock db)) |}) in *.
  rewrite (orderBy_unique _ [(c3, f3); (c2, f2); (c1, f1)]); [done| |].
  - apply NoDup_Permutation.
    + eapply NoDup_fmap_1, NoDup_collection_favorites.
    + rewrite !NoDup_cons, !elem_of_cons, elem_of_nil.
      split; [intros [[= ? ?]|[[= ? ?]|[]]]; congruence|].
      split; [intros [[= ? ?]|?%elem_of_nil]; congruence|].
      split; [apply not_elem_of_nil|apply NoDup_nil_2].
    + intros [c f]. rewrite elem_of_collection_favorites, Hdocs.
      unfold favoriteRef in *. rewrite !elem_of_cons, elem_of_nil.
      destruct (decide (c = c3)) as [->|N3].
      { rewrite lookup_insert_eq. split; [intros [= <-]; auto|].
        intros Hor. by repeat (destruct Hor as [Hor|Hor]; [by simplify_eq|]). }
      rewrite lookup_insert_ne by congruence.
      destruct (decide (c = c2)) as [->|N2].
      { rewrite lookup_insert_eq. split; [intros [= <-]; auto|].
        intros Hor. by repeat (destruct Hor as [Hor|Hor]; [by simplify_eq|]). }
      rewrite lookup_insert_ne by congruence.
      destruct (decide (c = c1)) as [->|N1].
      { rewrite lookup_insert_eq. split; [intros [= <-]; auto|].
        intros Hor. by repeat (destruct Hor as [Hor|Hor]; [by simplify_eq|]). }
      rewrite lookup_insert_ne, Hnone by congruence.
      split; [done|].
      intros Hor. by repeat (destruct Hor as [Hor|Hor]; [by simplify_eq|]).
  - repeat constructor; simpl; lia.
Qed.

(** C5. For a well-formed userId the list request answers 200 with the
    ids of exactly the user's current favourites, each once, ordered by
    descending creation time.  A user without favourites gets the empty
    list, as a success; and after adding three coins in the order c1, c2,
    c3 to a user without favourites, the listing is [c3; c2; c1]. *)
Theorem list_newest_first req db u :
  method req = "GET" ∨ method req = "POST" →
  list_userId req = u →
  Js.test_class Js.cls_userId 3 128 u = true →
  ∃ favorites : list string,
    response (getFavorites Succeeds req db) =
      envelope_response 200 "Favorites fetched successfully" (DataFavorites favorites) ∧
    NoDup favorites ∧
    (∀ c, c ∈ favorites ↔ is_Some (docs db !! favoriteRef u c)) ∧
    (∀ i j ci cj fi fj,
       i < j → favorites !! i = Some ci → favorites !! j = Some cj →
       docs db !! favoriteRef u ci = Some fi → docs db !! favoriteRef u cj = Some fj →
       (createdAt fj ≤ createdAt fi)%N) ∧
    ((∀ c, docs db !! favoriteRef u c = None) → favorites = []) ∧
    (∀ db0 c1 c2 c3,
       Js.test_class Js.cls_coinId 2 100 c1 = true →
       Js.test_class Js.cls_coinId 2 100 c2 = true →
       Js.test_class Js.cls_coinId 2 100 c3 = true →
       c1 ≠ c2 → c1 ≠ c3 → c2 ≠ c3 →
       (∀ c, docs db0 !! favoriteRef u c = None) →
       db = run_ops [OpToggle Succeeds (toggle_request u c1);
                     OpToggle Succeeds (toggle_request u c2);
                     OpToggle Succeeds (toggle_request u c3)] db0 →
       favorites = [c3; c2; c1]).
Proof.
  intros Hm Hu Hv. rewrite (getFavorites_accepts req db u Hm Hu Hv). simpl.
  set (sorted := orderBy_createdAt_desc (collection_favorites u db)).
  assert (∀ c f, (c, f) ∈ sorted ↔ docs db !! favoriteRef u c = Some f) as Hin.
  { intros c f. unfold sorted. rewrite orderBy_perm. apply elem_of_collection_favorites. }
  exists (fst <$> sorted). split; [done|]. split; [|split; [|split; [|split]]].
  - unfold sorted. rewrite orderBy_perm. apply NoDup_collection_favorites.
  - intros c. rewrite list_elem_of_fmap. split.
    + intros ([c' f] & -> & Hcf). apply Hin in Hcf. by eexists.
    + intros [f Hf]. exists (c, f). split; [done|]. by apply Hin.
  - intros i j ci cj fi fj Hij Hi Hj Hfi Hfj.
    apply list_lookup_fmap_Some in Hi as ([ci' fi'] & -> & Hi).
    apply list_lookup_fmap_Some in Hj as ([cj' fj'] & -> & Hj).
    simpl in *.
    pose proof (list_elem_of_lookup_2 _ _ _ Hi) as Hi'. apply Hin in Hi'.
    pose proof (list_elem_of_lookup_2 _ _ _ Hj) as Hj'. apply Hin in Hj'.
    pose proof (StronglySorted_lookup_lt newer_first sorted i j _ _
                  (orderBy_sorted _) Hij Hi Hj) as Hn.
    apply newer_first_createdAt in Hn. simpl in Hn. by simplify_eq.
  - intros Hnone. unfold sorted.
    by rewrite (collection_favorites_empty u db Hnone).
  - intros db0 c1 c2 c3 H1 H2 H3 H12 H13 H23 Hnone ->. unfold sorted.
    by apply three_adds_listing.
Qed.

Lemma list_newest_first_witness :
  response (getFavorites Succeeds (list_request "user1")
              (run_ops [OpToggle Succeeds (toggle_request "user1" "bitcoin");
                        OpToggle Succeeds (toggle_request "user1" "ethereum");
                        OpToggle Succeeds (toggle_request "user1" "solana")] empty_db)) =
    envelope_response 200 "Favorites fetched successfully"
      (DataFavorites ["solana"; "ethereum"; "bitcoin"]) ∧
  response (getFavorites Succeeds (list_request "user1") empty_db) =
    envelope_response 200 "Favorites fetched successfully" (DataFavorites []).
Proof.
  split.
  - destruct (list_newest_first (list_request "user1")
                (run_ops [OpToggle Succeeds (toggle_request "user1" "bitcoin");
                          OpToggle Succeeds (toggle_request "user1" "ethereum");
                          OpToggle Succeeds (toggle_request "user1" "solana")] empty_db)
                "user1" (or_introl eq_refl) eq_refl eq_refl)
      as (favorites & Hr & _ & _ & _ & _ & H3).
    rewrite (H3 empty_db "bitcoin" "ethereum" "solana") in Hr;
      [exact Hr|reflexivity..|discriminate|discriminate|discriminate|reflexivity|reflexivity].
  - destruct (list_newest_first (list_request "user1") empty_db
                "user1" (or_introl eq_refl) eq_refl eq_refl)
      as (favorites & Hr & _ & _ & _ & H0 & _).
    rewrite H0 in Hr; [exact Hr|reflexivity].
Defined.

(** ** The favourites of a user form a set *)

Lemma toggleFavorite_db_cases store req db :
  db_after (toggleFavorite store req db) = db ∨
  ∃ u c, db_after (toggleFavorite store req db) =
           (runTransaction Succeeds (toggleTx (favoriteRef u c) c) db).2.
Proof.
  unfold toggleFavorite. fold (toggle_userId req) (toggle_coinId req).
  repeat case_decide; try (by left).
  destruct (negb _ || negb _); [by left|].
  destruct (negb _ || negb _); [by left|].
  destruct store.
  - right. exists (toggle_userId req), (toggle_coinId req).
    by rewrite runTransaction_toggle.
  - by left.
Qed.

Lemma getFavorites_db store req db : db_after (getFavorites store req db) = db.
Proof.
  unfold getFavorites. fold (list_userId req).
  case_decide; [done|]. case_decide; [done|].
  destruct (negb _ || negb _); [done|].
  by destruct (query_get _ _ _).
Qed.

Lemma well_keyed_empty : well_keyed empty_db.
Proof. intros u c f Hf. simpl in Hf. by rewrite lookup_empty in Hf. Qed.

Lemma well_keyed_run_op op db : well_keyed db → well_keyed (db_after (run_op op db)).
Proof.
  intros Hwk. destruct op as [store req|store req]; simpl.
  - destruct (toggleFavorite_db_cases store req db) as [->|(u & c & ->)]; [done|].
    rewrite runTransaction_toggle. unfold favoriteRef, well_keyed.
    cbn [snd docs]. intros u' c' f.
    destruct (docs db !! (u, c)) eqn:Hf.
    + intros [_ Hl]%lookup_delete_Some. by eapply Hwk.
    + intros [[[= <- <-] <-]|[_ Hl]]%lookup_insert_Some; [done|]. by eapply Hwk.
  - by rewrite getFavorites_db.
Qed.

Lemma well_keyed_run_ops ops db : well_keyed db → well_keyed (run_ops ops db).
Proof.
  revert db. induction ops as [|op ops IH]; intros db Hwk; [done|].
  apply IH, well_keyed_run_op, Hwk.
Qed.

Lemma NoDup_favoriteSet userId db :
  well_keyed db → NoDup (coinId <$> favoriteSet userId db).
Proof.
  intros Hwk. unfold favoriteSet.
  assert (coinId <$> (snd <$> collection_favorites userId db) =
          fst <$> collection_favorites userId db) as ->; [|apply NoDup_collection_favorites].
  rewrite <-list_fmap_compose. apply list_fmap_ext. intros i [c f] Hin. simpl.
  apply list_elem_of_lookup_2, elem_of_collection_favorites in Hin. by eapply Hwk.
Qed.

Lemma NoDup_fmap_count {A B} `{EqDecision B} (g : A → B) (l : list A) b :
  NoDup (g <$> l) → length (filter (λ x, g x = b) l) ≤ 1.
Proof.
  induction l as [|a l IH]; simpl; [lia|].
  rewrite NoDup_cons. intros [Hnot Hnd]. rewrite filter_cons.
  case_decide as Ha; simpl; [|by apply IH].
  assert (filter (λ x, g x = b) l = []) as ->; [|simpl; lia].
  apply elem_of_nil_inv. intros x [Hx Hin]%list_elem_of_filter.
  apply Hnot. rewrite Ha, <-Hx. by apply list_elem_of_fmap_2.
Qed.

(** C4. In every state reached from the empty store by a sequence of
    toggle and list requests, whatever the store answers, a user's
    Favorite Set holds at most one entry per coin: no two entries of the
    user name the same coinId. *)
Theorem favorites_form_a_set ops userId :
  NoDup (coinId <$> favoriteSet userId (run_ops ops empty_db)) ∧
  (∀ id, length (filter (λ f, coinId f = id)
                   (favoriteSet userId (run_ops ops empty_db))) ≤ 1).
Proof.
  assert (NoDup (coinId <$> favoriteSet userId (run_ops ops empty_db))) as Hnd.
  { apply NoDup_favoriteSet, well_keyed_run_ops, well_keyed_empty. }
  split; [done|]. intros id. by apply NoDup_fmap_count.
Qed.

(** ** Concurrent toggles *)

Lemma length_filter_insert {A} (P : A → Prop) `{∀ x, Decision (P x)} l i x y :
  l !! i = Some x →
  length (filter P (<[i := y]> l)) + (if decide (P x) then 1 else 0) =
  length (filter P l) + (if decide (P y) then 1 else 0).
Proof.
  intros Hi. pose proof (lookup_lt_Some _ _ _ Hi) as Hlt.
  rewrite (insert_take_drop l i y Hlt).
  rewrite <-(take_drop_middle l i x Hi) at 3.
  rewrite !filter_app, !filter_cons, !length_app.
  repeat case_decide; simpl; lia.
Qed.

Lemma returned_insert b db db' calls i c c' :
  calls !! i = Some c →
  returned b {| c_db := db'; c_calls := <[i := c']> calls |} +
    (if decide (c = Returned b) then 1 else 0) =
  returned b {| c_db := db; c_calls := calls |} +
    (if decide (c' = Returned b) then 1 else 0).
Proof.
  intros Hi. unfold returned. simpl.
  exact (length_filter_insert (λ x, x = Returned b) calls i c c' Hi).
Qed.

Lemma toggle_inv_initial db0 n ref :
  docs db0 !! ref = None → toggle_inv db0 n ref (initial db0 n).
Proof.
  intros Hfresh. unfold toggle_inv, initial, returned. simpl. rewrite Hfresh.
  split; [|split; [done|by rewrite length_replicate]].
  assert (∀ b, filter (λ c, c = Returned b) (replicate n Waiting) = []) as Hnil.
  { intros b. apply elem_of_nil_inv.
    intros c [-> [Hc _]%elem_of_replicate]%list_elem_of_filter. done. }
  by rewrite !Hnil.
Qed.

(** Settles the [decide]s on call states in the hypotheses. *)
Ltac settle_decides :=
  repeat match goal with
  | H : context [decide (?x = ?y)] |- _ =>
      first [ rewrite (decide_False (P := x = y)) in H by done
            | rewrite (decide_True (P := x = y)) in H by done ]
  end.

Lemma toggle_inv_step db0 n ref coinId cfg cfg' :
  step ref coinId cfg cfg' → toggle_inv db0 n ref cfg → toggle_inv db0 n ref cfg'.
Proof.
  intros Hstep (Hcount & Hother & Hlen).
  destruct Hstep as [i db calls Hi|i db calls snap a st Hi Hrun Hval
                    |i db calls snap a st Hi Hrun Hval|i db calls c Hi Hc].
  - pose proof (returned_insert true db db calls i _ (Running (docs db)) Hi) as Ht.
    pose proof (returned_insert false db db calls i _ (Running (docs db)) Hi) as Hf.
    settle_decides.
    split; [|split; [done|simpl; by rewrite length_insert]]. simpl in *. lia.
  - rewrite tx_run_toggle in Hrun. injection Hrun as <- <-.
    unfold validated in Hval. simpl in Hval. rewrite Forall_singleton in Hval.
    set (db' := commit _ db).
    pose proof (returned_insert true db db' calls i _
                  (Returned (negb (snap_exists (snap !! ref)))) Hi) as Ht.
    pose proof (returned_insert false db db' calls i _
                  (Returned (negb (snap_exists (snap !! ref)))) Hi) as Hf.
    simpl in Hcount, Hother, Hlen. rewrite Hval in Hcount.
    split; [|split; [|simpl; by rewrite length_insert]].
    + subst db'. destruct (snap !! ref) as [f|]; simpl in *.
      * rewrite lookup_delete_eq. simpl. settle_decides. lia.
      * rewrite lookup_insert_eq. simpl. settle_decides. lia.
    + intros r Hr. rewrite <-(Hother r Hr). subst db'.
      destruct (snap !! ref) as [f|]; simpl.
      * by rewrite lookup_delete_ne.
      * by rewrite lookup_insert_ne.
  - pose proof (returned_insert true db db calls i _ Waiting Hi) as Ht.
    pose proof (returned_insert false db db calls i _ Waiting Hi) as Hf.
    settle_decides.
    split; [|split; [done|simpl; by rewrite length_insert]]. simpl in *. lia.
  - pose proof (returned_insert true db db calls i _ Failed Hi) as Ht.
    pose proof (returned_insert false db db calls i _ Failed Hi) as Hf.
    destruct Hc as [->|[? ->]]; settle_decides;
      (split; [|split; [done|simpl; by rewrite length_insert]]); simpl in *; lia.
Qed.

Lemma toggle_inv_reachable db0 n ref coinId cfg :
  docs db0 !! ref = None →
  rtc (step ref coinId) (initial db0 n) cfg → toggle_inv db0 n ref cfg.
Proof.
  intros Hfresh Hrun.
  eapply (rtc_ind_r (toggle_inv db0 n ref) (initial db0 n)); [| |exact Hrun].
  - by apply toggle_inv_initial.
  - intros y z _ Hstep IH. by eapply toggle_inv_step.
Qed.

Lemma insert_middle {A} (l1 l2 : list A) x y :
  <[length l1 := y]> (l1 ++ x :: l2) = l1 ++ y :: l2.
Proof. induction l1 as [|a l1 IH]; simpl; [done|]. by rewrite IH. Qed.

(** The calls can always be run to completion, one after the other. *)
Lemma serial_run ref coinId m :
  ∀ finished db,
    Forall (λ c, ∃ b, c = Returned b) finished →
    ∃ cfg, rtc (step ref coinId)
             {| c_db := db; c_calls := finished ++ replicate m Waiting |} cfg ∧
           all_returned cfg.
Proof.
  induction m as [|m IH]; intros finished db Hfin.
  - eexists. split; [apply rtc_refl|]. unfold all_returned. simpl.
    by rewrite app_nil_r.
  - simpl.
    destruct (IH (finished ++ [Returned (negb (snap_exists (docs db !! ref)))])
                (commit (if snap_exists (docs db !! ref) then [WDelete ref]
                         else [WSet ref {| d_coinId := coinId;
                                           d_createdAt := serverTimestamp |}]) db))
      as (cfg & Hrun & Hall).
    { apply Forall_app. split; [done|]. apply Forall_singleton. by eexists. }
    exists cfg. split; [|done].
    eapply rtc_l.
    { apply (step_begin ref coinId (length finished)). by apply list_lookup_middle. }
    rewrite insert_middle.
    rewrite <-(assoc_L (++)) in Hrun.
    change ([?x] ++ ?l) with (x :: l) in Hrun.
    rewrite <-(insert_middle finished (replicate m Waiting) (Running (docs db))
                 (Returned (negb (snap_exists (docs db !! ref))))) in Hrun.
    eapply rtc_l; [|exact Hrun].
    eapply (step_commit ref coinId (length finished) db _ (docs db)
              (negb (snap_exists (docs db !! ref)))
              {| reads := [ref];
                 writes := if snap_exists (docs db !! ref) then [WDelete ref]
                           else [WSet ref {| d_coinId := coinId;
                                             d_createdAt := serverTimestamp |}] |}).
    + by apply list_lookup_middle.
    + apply tx_run_toggle.
    + unfold validated. simpl. by apply Forall_singleton.
Qed.

Lemma all_returned_committed cfg :
  all_returned cfg → committed cfg = length (c_calls cfg).
Proof.
  unfold all_returned, committed, returned. induction 1 as [|c l [b ->] _ IH]; [done|].
  rewrite !filter_cons. destruct b; repeat case_decide; simplify_eq; simpl in *; lia.
Qed.

(** C2, as the code has it. However the store interleaves [n] concurrent
    toggle calls on a fresh pair, their commits are serialised: in every
    configuration reached, of the [k] calls that have committed, the
    ones that created the entry are [(k + 1) / 2] and the ones that
    deleted it [k / 2] (creations and deletions alternate), the entry is
    present exactly when [k] is odd, and no other document changed.  When
    all [n] calls have returned, [k = n]; and the calls can always be run
    to that point. *)
Theorem concurrent_toggles_serialise n ref coinId db0 :
  docs db0 !! ref = None →
  (∃ cfg, rtc (step ref coinId) (initial db0 n) cfg ∧ all_returned cfg) ∧
  (∀ cfg, rtc (step ref coinId) (initial db0 n) cfg →
     returned true cfg = (committed cfg + 1) / 2 ∧
     returned false cfg = committed cfg / 2 ∧
     (is_Some (docs (c_db cfg) !! ref) ↔ Nat.Odd (committed cfg)) ∧
     (∀ r, r ≠ ref → docs (c_db cfg) !! r = docs db0 !! r) ∧
     (all_returned cfg → committed cfg = n)).
Proof.
  intros Hfresh. split.
  - apply (serial_run ref coinId n [] db0). constructor.
  - intros cfg Hrun.
    destruct (toggle_inv_reachable db0 n ref coinId cfg Hfresh Hrun)
      as (Hcount & Hother & Hlen).
    unfold committed.
    split; [|split; [|split; [|split; [done|]]]].
    + destruct (docs (c_db cfg) !! ref); simpl in Hcount; rewrite Hcount.
      * replace (_ + 1 + _ + 1) with (2 * (returned false cfg + 1)) by lia.
        by rewrite Nat.mul_comm, Nat.div_mul.
      * replace (_ + 0 + _ + 1) with (1 + returned false cfg * 2) by lia.
        by rewrite Nat.div_add.
    + destruct (docs (c_db cfg) !! ref); simpl in Hcount; rewrite Hcount.
      * replace (_ + 1 + _) with (1 + returned false cfg * 2) by lia.
        by rewrite Nat.div_add.
      * replace (_ + 0 + _) with (returned false cfg * 2) by lia.
        by rewrite Nat.div_mul.
    + destruct (docs (c_db cfg) !! ref); simpl in Hcount; rewrite Hcount.
      * split; [intros _|by eauto]. exists (returned false cfg). lia.
      * split; [by intros [? ?]|]. intros [m Hm]. lia.
    + intros Hall. rewrite <-Hlen. by apply all_returned_committed.
Qed.

Lemma concurrent_toggles_serialise_witness :
  (∃ cfg, rtc (step (favoriteRef "user1" "bitcoin") "bitcoin") (initial empty_db 3) cfg ∧
          all_returned cfg) ∧
  (∀ cfg, rtc (step (favoriteRef "user1" "bitcoin") "bitcoin") (initial empty_db 3) cfg →
     returned true cfg = (committed cfg + 1) / 2 ∧
     returned false cfg = committed cfg / 2 ∧
     (is_Some (docs (c_db cfg) !! favoriteRef "user1" "bitcoin") ↔ Nat.Odd (committed cfg)) ∧
     (∀ r, r ≠ favoriteRef "user1" "bitcoin" → docs (c_db cfg) !! r = docs empty_db !! r) ∧
     (all_returned cfg → committed cfg = 3)).
Proof.
  apply (concurrent_toggles_serialise 3 (favoriteRef "user1" "bitcoin") "bitcoin" empty_db).
  reflexivity.
Defined.

(** C2, as the claim has it, fails at three calls: all three read the
    fresh pair as absent; the first commits and creates the entry, the
    other two are turned away at commit and retry; the second then
    deletes the entry and the third creates it again.  Two calls created
    the entry, not one. *)
Lemma exactly_one_creator_counterexample :
  ∃ cfg,
    rtc (step (favoriteRef "user1" "bitcoin") "bitcoin") (initial empty_db 3) cfg ∧
    c_calls cfg = [Returned true; Returned false; Returned true] ∧
    all_returned cfg ∧
    returned true cfg = 2 ∧
    docs (c_db cfg) !! favoriteRef "user1" "bitcoin" =
      Some {| coinId := "bitcoin"; createdAt := 2 |}.
Proof.
  eexists. split.
  - eapply rtc_l; [by apply (step_begin _ _ 0)|].
    eapply rtc_l; [by apply (step_begin _ _ 1)|].
    eapply rtc_l; [by apply (step_begin _ _ 2)|].
    eapply rtc_l.
    { eapply (step_commit _ _ 0); [reflexivity|apply tx_run_toggle|].
      unfold validated. simpl. by apply Forall_singleton. }
    eapply rtc_l.
    { eapply (step_conflict _ _ 1); [reflexivity|apply tx_run_toggle|].
      unfold validated. simpl. rewrite Forall_singleton. by vm_compute. }
    eapply rtc_l.
    { eapply (step_conflict _ _ 2); [reflexivity|apply tx_run_toggle|].
      unfold validated. simpl. rewrite Forall_singleton. by vm_compute. }
    eapply rtc_l; [by apply (step_begin _ _ 1)|].
    eapply rtc_l.
    { eapply (step_commit _ _ 1); [reflexivity|apply tx_run_toggle|].
      unfold validated. simpl. by apply Forall_singleton. }
    eapply rtc_l; [by apply (step_begin _ _ 2)|].
    eapply rtc_l.
    { eapply (step_commit _ _ 2); [reflexivity|apply tx_run_toggle|].
      unfold validated. simpl. by apply Forall_singleton. }
    apply rtc_refl.
  - split; [reflexivity|]. split; [|split; reflexivity].
    unfold all_returned. simpl. repeat constructor; by eexists.
Qed.

(** ** Worked requests *)

Example trim_ex : Js.trim "  Bitcoin " = "Bitcoin".
Proof. reflexivity. Qed.

Example toLowerCase_ex : Js.toLowerCase "Bitcoin-2" = "bitcoin-2".
Proof. reflexivity. Qed.

Example encodeURIComponent_ex :
  Js.encodeURIComponent (String "a" (String " " (String "/" (String (ascii_of_N 233) ""))))
  = "a%20%2F%C3%A9".
Proof. vm_compute. reflexivity. Qed.

Example userId_pattern_ex :
  Js.test_class Js.cls_userId 3 128 "ab" = false ∧
  Js.test_class Js.cls_userId 3 128 "u_1-X" = true ∧
  Js.test_class Js.cls_userId 3 128 "user 1" = false.
Proof. repeat split; reflexivity. Qed.

Example coinId_pattern_ex :
  Js.test_class Js.cls_coinId 2 100 "a" = false ∧
  Js.test_class Js.cls_coinId 2 100 "usd-coin" = true ∧
  Js.test_class Js.cls_coinId 2 100 "ab!" = false.
Proof. repeat split; reflexivity. Qed.

Example not_found_body_ex : String.length not_found_body = 21.
Proof. reflexivity. Qed.

(** Three toggles of one fresh pair: added, removed, added again. *)
Example toggle_thrice_ex :
  let req := toggle_request "user1" "bitcoin" in
  let o1 := toggleFavorite Succeeds req empty_db in
  let o2 := toggleFavorite Succeeds req (db_after o1) in
  let o3 := toggleFavorite Succeeds req (db_after o2) in
  (λ o, favorited_of (response o)) <$> [o1; o2; o3] = [Some true; Some false; Some true].
Proof. vm_compute. reflexivity. Qed.

(** Add two coins, remove the first: the listing holds the second. *)
Example list_after_removal_ex :
  let db := run_ops [OpToggle Succeeds (toggle_request "user1" "bitcoin");
                     OpToggle Succeeds (toggle_request "user1" "ethereum");
                     OpToggle Succeeds (toggle_request "user1" "bitcoin")] empty_db in
  response_data (response (getFavorites Succeeds (list_request "user1") db)) =
    Some (DataFavorites ["ethereum"]).
Proof. vm_compute. reflexivity. Qed.

(** The wrong verb is answered 405 and OPTIONS 204, before anything else. *)
Example method_gate_ex :
  status (response (toggleFavorite Succeeds (list_request "user1") empty_db)) = 405%Z ∧
  status (getCoin (λ _, FetchThrows)
            {| method := "OPTIONS"; query := ∅; body := None |}).1 = 204%Z ∧
  payload (getCoin (λ _, FetchThrows)
             {| method := "OPTIONS"; query := ∅; body := None |}).1 = Some (Sent "").
Proof. repeat split; reflexivity. Qed.

(** An upper-case currency is lower-cased and fetched. *)
Example markets_upper_case_ex :
  (getMarkets (λ _, FetchThrows)
     {| method := "GET"; query := <["currency" := JStr "EUR"]> ∅; body := None |}).2 =
    [FetchCall "https://api.coingecko.com/api/v3/coins/markets?vs_currency=eur"].
Proof. vm_compute. reflexivity. Qed.

(** * Further properties of the handlers *)

(** ** Headers, verbs and the shape of responses *)

(** Splits a handler into its paths. *)
Ltac handler_paths :=
  repeat first
    [ case_decide
    | match goal with
      | |- context [if ?b then _ else _] => destruct b eqn:?
      | |- context [match ?x with FetchThrows => _ | FetchResolves _ => _ end] =>
          destruct x eqn:?
      | |- context [match ?x with Some _ => _ | None => _ end] => destruct x eqn:?
      end ].

(** X1. Whatever the request, the store and the upstream do, the
    response of each of the four handlers has the three CORS headers of
    [setCorsHeaders] set, with the values given there: the error
    responses too. *)
Theorem cors_headers_on_every_response fetch store req db :
  has_cors_headers (getMarkets fetch req).1 ∧
  has_cors_headers (response (getFavorites store req db)) ∧
  has_cors_headers (response (toggleFavorite store req db)) ∧
  has_cors_headers (getCoin fetch req).1.
Proof.
  split; [|split; [|split]].
  - unfold getMarkets. handler_paths; by repeat split.
  - unfold getFavorites. handler_paths; by repeat split.
  - unfold toggleFavorite. handler_paths; try by repeat split.
    destruct (runTransaction _ _ _) as [[?|] ?]; by repeat split.
  - unfold getCoin. handler_paths; by repeat split.
Qed.

(** X2. An OPTIONS request is answered 204 with an empty body by each
    of the four handlers, before anything else is looked at: whatever
    the query, the body, the store and the upstream, no collaborator is
    called and the store is left as it is. *)
Theorem options_preflight fetch store req db :
  method req = "OPTIONS" →
  getMarkets fetch req = (preflight_response, []) ∧
  getFavorites store req db =
    {| response := preflight_response; db_after := db; effects := [] |} ∧
  toggleFavorite store req db =
    {| response := preflight_response; db_after := db; effects := [] |} ∧
  getCoin fetch req = (preflight_response, []).
Proof.
  intros Hm. unfold getMarkets, getFavorites, toggleFavorite, getCoin.
  rewrite Hm. by rewrite !(decide_True (P := "OPTIONS" = "OPTIONS")).
Qed.

Lemma options_preflight_witness :
  toggleFavorite Throws {| method := "OPTIONS"; query := ∅; body := None |} empty_db =
    {| response := preflight_response; db_after := empty_db; effects := [] |} ∧
  status preflight_response = 204%Z ∧ payload preflight_response = Some (Sent "").
Proof.
  split; [|split; reflexivity].
  apply (options_preflight (λ _, FetchThrows) Throws
           {| method := "OPTIONS"; query := ∅; body := None |} empty_db eq_refl).
Defined.

(** X3. A request with a verb the handler does not serve (anything but
    GET for the market list, GET or POST for the listing, POST for the
    toggle and the coin detail; OPTIONS apart) is answered with the 405
    envelope, without validation, without calling a collaborator and
    without touching the store. *)
Theorem method_not_allowed fetch store req db :
  method req ≠ "OPTIONS" →
  (method req ≠ "GET" →
   getMarkets fetch req = (envelope_response 405 "Method Not Allowed" DataNull, [])) ∧
  (method req ≠ "GET" → method req ≠ "POST" →
   getFavorites store req db =
     {| response := envelope_response 405 "Method Not Allowed" DataNull;
        db_after := db; effects := [] |}) ∧
  (method req ≠ "POST" →
   toggleFavorite store req db =
     {| response := envelope_response 405 "Method Not Allowed" DataNull;
        db_after := db; effects := [] |} ∧
   getCoin fetch req = (envelope_response 405 "Method Not Allowed" DataNull, [])).
Proof.
  intros Hopt. split; [|split].
  - intros Hget. unfold getMarkets.
    by rewrite (decide_False (P := _ = "OPTIONS")), (decide_True (P := _ ≠ "GET")).
  - intros Hget Hpost. unfold getFavorites.
    by rewrite (decide_False (P := _ = "OPTIONS")), (decide_True (P := _ ∧ _)).
  - intros Hpost. unfold toggleFavorite, getCoin.
    by rewrite !(decide_False (P := _ = "OPTIONS")), !(decide_True (P := _ ≠ "POST")).
Qed.

Lemma method_not_allowed_witness :
  toggleFavorite Succeeds (list_request "user1") empty_db =
    {| response := envelope_response 405 "Method Not Allowed" DataNull;
       db_after := empty_db; effects := [] |} ∧
  getMarkets (λ _, FetchThrows) (toggle_request "user1" "bitcoin") =
    (envelope_response 405 "Method Not Allowed" DataNull, []).
Proof.
  split.
  - destruct (method_not_allowed (λ _, FetchThrows) Succeeds (list_request "user1") empty_db)
      as (_ & _ & Hpost); [discriminate|].
    apply Hpost. discriminate.
  - destruct (method_not_allowed (λ _, FetchThrows) Succeeds
                (toggle_request "user1" "bitcoin") empty_db) as (Hget & _ & _);
      [discriminate|].
    apply Hget. discriminate.
Defined.

(** X4. Every response of the toggle and of the coin-detail handler is
    well formed, whatever the request carries and whatever the store and
    the upstream do: it is the bodiless 204 of the preflight, or a JSON
    envelope whose [status] field is the HTTP status of the response.
    No path of the two leaves the response unsent, and none sends an
    envelope that disagrees with its status line. *)
Theorem toggle_and_coin_responses_well_formed fetch store req db :
  well_formed (response (toggleFavorite store req db)) ∧
  well_formed (getCoin fetch req).1.
Proof.
  split.
  - unfold toggleFavorite. handler_paths; try first [by left|right; by eexists].
    destruct (runTransaction _ _ _) as [[?|] ?]; right; by eexists.
  - unfold getCoin. handler_paths; first [by left|right; by eexists].
Qed.

(** X5. The toggle answers with one of five status codes: 200, 204,
    400, 405 or 500; and its envelope carries data (the [favorited]
    flag) on 200 only: every other envelope has [data = null]. *)
Theorem toggle_status_codes store req db :
  let toggle_res := response (toggleFavorite store req db) in
  status toggle_res ∈ [200; 204; 400; 405; 500]%Z ∧
  (status toggle_res = 200%Z → ∃ b, response_data toggle_res = Some (DataFavorited b)) ∧
  (status toggle_res ≠ 200%Z → status toggle_res ≠ 204%Z →
   response_data toggle_res = Some DataNull).
Proof.
  cbv zeta. unfold toggleFavorite. handler_paths; simpl;
    try ((split; [rewrite !elem_of_cons; tauto|]); (split; [try done; by eauto|done])).
  destruct (runTransaction _ _ _) as [[?|] ?]; simpl;
    (split; [rewrite !elem_of_cons; tauto|]); (split; [try done; by eauto|done]).
Qed.

(** ** The proxies, path by path *)

Lemma cls_coinId_unreserved c : Js.cls_coinId c = true → Js.isUnreserved c = true.
Proof. destruct c as [[] [] [] [] [] [] [] []]; vm_compute; congruence. Qed.

Lemma cls_currency_unreserved c : Js.cls_currency c = true → Js.isUnreserved c = true.
Proof. destruct c as [[] [] [] [] [] [] [] []]; vm_compute; congruence. Qed.

Lemma encodeURIComponent_unreserved s :
  Js.all Js.isUnreserved s = true → Js.encodeURIComponent s = s.
Proof.
  induction s as [|c s IH]; simpl; [done|].
  rewrite andb_true_iff. intros [-> Hs]. by rewrite (IH Hs).
Qed.

(** What [getCoin] does with a POST request, by its id. *)
Lemma getCoin_post fetch req :
  method req = "POST" →
  getCoin fetch req =
    if Js.test_class Js.cls_coinId 2 100 (coin_id req) then
      ((getCoin fetch req).1, [FetchCall (coin_url (coin_id req))])
    else (envelope_response 400 "Invalid or missing 'id' in request body" DataNull, []).
Proof.
  intros Hm. unfold getCoin. fold (coin_id req). rewrite Hm.
  rewrite (decide_False (P := "POST" = "OPTIONS")) by done.
  rewrite (decide_False (P := "POST" ≠ "POST")) by (intros ?; done).
  destruct (Js.test_class Js.cls_coinId 2 100 (coin_id req)) eqn:Hv.
  - by rewrite (test_class_nonEmpty _ 2 100 _ ltac:(lia) Hv).
  - by rewrite orb_true_r.
Qed.

(** X6. When the upstream answers a proxy request with a success
    status and a body that parses as JSON, the handler answers 200 with
    its success message and, as [data.coin] for the coin detail and as
    [data.markets] for the market list, the value that
    [response.json()] parsed from that body. *)
Theorem proxy_success_sends_parsed_body fetch req r text :
  response_ok r = true → up_body r = Some text → up_parses r = true →
  (method req = "POST" →
   Js.test_class Js.cls_coinId 2 100 (coin_id req) = true →
   fetch (coin_url (coin_id req)) = FetchResolves r →
   getCoin fetch req =
     (envelope_response 200 "Coin fetched successfully" (DataCoin (JsonDoc text)),
      [FetchCall (coin_url (coin_id req))])) ∧
  (method req = "GET" →
   Js.test_class Js.cls_currency 2 10 (markets_currency req) = true →
   fetch (markets_url (markets_currency req)) = FetchResolves r →
   getMarkets fetch req =
     (envelope_response 200 "Markets fetched successfully" (DataMarkets (JsonDoc text)),
      [FetchCall (markets_url (markets_currency req))])).
Proof.
  intros Hok Hbody Hp. split.
  - intros Hm Hv Hf. rewrite (getCoin_post fetch req Hm), Hv. f_equal.
    unfold getCoin. fold (coin_id req). rewrite Hm, Hv.
    rewrite (test_class_nonEmpty _ 2 100 _ ltac:(lia) Hv).
    rewrite (decide_False (P := "POST" = "OPTIONS")) by done.
    rewrite (decide_False (P := "POST" ≠ "POST")) by (intros ?; done).
    simpl. unfold response_json. by rewrite Hf, Hok, Hbody, Hp.
  - intros Hm Hv Hf. rewrite (getMarkets_get fetch req Hm), Hv. f_equal.
    unfold getMarkets. fold (markets_currency req). rewrite Hm, Hv.
    rewrite (decide_False (P := "GET" = "OPTIONS")) by done.
    rewrite (decide_False (P := "GET" ≠ "GET")) by (intros ?; done).
    simpl. unfold response_json. by rewrite Hf, Hok, Hbody, Hp.
Qed.

Lemma proxy_success_sends_parsed_body_witness :
  let fetch := λ _ : string,
    FetchResolves {| up_status := 200; up_body := Some "[]"; up_parses := true |} in
  getCoin fetch (coin_request "bitcoin") =
    (envelope_response 200 "Coin fetched successfully" (DataCoin (JsonDoc "[]")),
     [FetchCall "https://api.coingecko.com/api/v3/coins/bitcoin"]) ∧
  getMarkets fetch {| method := "GET"; query := ∅; body := None |} =
    (envelope_response 200 "Markets fetched successfully" (DataMarkets (JsonDoc "[]")),
     [FetchCall "https://api.coingecko.com/api/v3/coins/markets?vs_currency=usd"]).
Proof.
  cbv zeta. split.
  - destruct (proxy_success_sends_parsed_body
                (λ _, FetchResolves {| up_status := 200; up_body := Some "[]";
                                       up_parses := true |})
                (coin_request "bitcoin")
                {| up_status := 200; up_body := Some "[]"; up_parses := true |} "[]"
                eq_refl eq_refl eq_refl) as [Hc _].
    exact (Hc eq_refl eq_refl eq_refl).
  - destruct (proxy_success_sends_parsed_body
                (λ _, FetchResolves {| up_status := 200; up_body := Some "[]";
                                       up_parses := true |})
                {| method := "GET"; query := ∅; body := None |}
                {| up_status := 200; up_body := Some "[]"; up_parses := true |} "[]"
                eq_refl eq_refl eq_refl) as [_ Hm].
    exact (Hm eq_refl eq_refl eq_refl).
Defined.

(** X7. When the fetch throws, or the upstream answers with a success
    status and a body that is not JSON, the proxy handlers answer with
    the generic 500 envelope "Failed to fetch data" and [data = null]:
    nothing of the failure is passed on. *)
Theorem proxy_failure_is_generic_500 fetch req url :
  fetch url = FetchThrows ∨
  (∃ r, fetch url = FetchResolves r ∧ response_ok r = true ∧ up_parses r = false) →
  ((getCoin fetch req).2 = [FetchCall url] →
   (getCoin fetch req).1 = envelope_response 500 "Failed to fetch data" DataNull) ∧
  ((getMarkets fetch req).2 = [FetchCall url] →
   (getMarkets fetch req).1 = envelope_response 500 "Failed to fetch data" DataNull).
Proof.
  intros Hfail. split.
  - unfold getCoin. repeat case_decide; simpl; try done.
    destruct (negb _ || negb _); simpl; [done|].
    intros [= <-]. unfold response_json.
    destruct Hfail as [->|(r & -> & -> & ->)]; [done|]. simpl.
    by destruct (up_body r).
  - unfold getMarkets. repeat case_decide; simpl; try done.
    destruct (negb _); simpl; [done|].
    intros [= <-]. unfold response_json.
    destruct Hfail as [->|(r & -> & -> & ->)]; [done|]. simpl.
    by destruct (up_body r).
Qed.

Lemma proxy_failure_is_generic_500_witness :
  (getCoin (λ _, FetchThrows) (coin_request "bitcoin")).1 =
    envelope_response 500 "Failed to fetch data" DataNull ∧
  (getMarkets (λ _, FetchResolves {| up_status := 200; up_body := Some "<html>";
                                     up_parses := false |})
     {| method := "GET"; query := ∅; body := None |}).1 =
    envelope_response 500 "Failed to fetch data" DataNull.
Proof.
  split.
  - destruct (proxy_failure_is_generic_500 (λ _, FetchThrows) (coin_request "bitcoin")
                (coin_url "bitcoin") (or_introl eq_refl)) as [Hc _].
    apply Hc. reflexivity.
  - destruct (proxy_failure_is_generic_500
                (λ _, FetchResolves {| up_status := 200; up_body := Some "<html>";
                                       up_parses := false |})
                {| method := "GET"; query := ∅; body := None |} (markets_url "usd")
                (or_intror (ex_intro _ {| up_status := 200; up_body := Some "<html>";
                                          up_parses := false |}
                              (conj eq_refl (conj eq_refl eq_refl))))) as [_ Hm].
    apply Hm. reflexivity.
Defined.

(** X8. A proxy handler calls the upstream at most once per request,
    and only with a validated value, which then appears in the URL
    exactly as it is: the characters the patterns admit are left alone by
    [encodeURIComponent], so the URL is the fixed prefix followed by the
    lower-case id or currency, with no escape sequence in it. *)
Theorem proxy_url_is_prefix_and_value fetch req :
  ((getCoin fetch req).2 = [] ∨
   method req = "POST" ∧
   Js.test_class Js.cls_coinId 2 100 (coin_id req) = true ∧
   (getCoin fetch req).2 =
     [FetchCall ("https://api.coingecko.com/api/v3/coins/" +:+ coin_id req)]) ∧
  ((getMarkets fetch req).2 = [] ∨
   method req = "GET" ∧
   Js.test_class Js.cls_currency 2 10 (markets_currency req) = true ∧
   (getMarkets fetch req).2 =
     [FetchCall ("https://api.coingecko.com/api/v3/coins/markets?vs_currency=" +:+
                 markets_currency req)]).
Proof.
  split.
  - destruct (decide (method req = "POST")) as [Hpost|Hpost].
    + pose proof (getCoin_post fetch req Hpost) as Heq.
      destruct (Js.test_class Js.cls_coinId 2 100 (coin_id req)) eqn:Hv.
      * right. split; [done|]. split; [done|]. rewrite Heq. simpl. unfold coin_url.
        rewrite encodeURIComponent_unreserved; [done|].
        apply test_class_all in Hv. revert Hv. apply all_impl, cls_coinId_unreserved.
      * left. by rewrite Heq.
    + left. unfold getCoin. by repeat case_decide.
  - destruct (decide (method req = "GET")) as [Hget|Hget].
    + pose proof (getMarkets_get fetch req Hget) as Heq.
      destruct (Js.test_class Js.cls_currency 2 10 (markets_currency req)) eqn:Hv.
      * right. split; [done|]. split; [done|]. rewrite Heq. simpl. unfold markets_url.
        rewrite encodeURIComponent_unreserved; [done|].
        apply test_class_all in Hv. revert Hv. apply all_impl, cls_currency_unreserved.
      * left. by rewrite Heq.
    + left. unfold getMarkets. by repeat case_decide.
Qed.

(** X9. The proxies validate before they fetch: a coin-detail request
    whose trimmed, lower-cased id fails the id pattern, and a market-list
    request whose lower-cased currency fails the currency pattern, never
    reach the upstream; with the verb the handler serves they are
    answered with the 400 envelope. *)
Theorem proxy_rejects_before_fetch fetch req :
  (Js.test_class Js.cls_coinId 2 100 (coin_id req) = false →
   (getCoin fetch req).2 = [] ∧
   (method req = "POST" →
    (getCoin fetch req).1 =
      envelope_response 400 "Invalid or missing 'id' in request body" DataNull)) ∧
  (Js.test_class Js.cls_currency 2 10 (markets_currency req) = false →
   (getMarkets fetch req).2 = [] ∧
   (method req = "GET" →
    (getMarkets fetch req).1 = envelope_response 400 "Invalid currency parameter" DataNull)).
Proof.
  split; intros Hbad.
  - split.
    + unfold getCoin. fold (coin_id req). rewrite Hbad, orb_true_r.
      by repeat case_decide.
    + intros Hm. by rewrite (getCoin_post fetch req Hm), Hbad.
  - split.
    + unfold getMarkets. fold (markets_currency req). rewrite Hbad.
      by repeat case_decide.
    + intros Hm. by rewrite (getMarkets_get fetch req Hm), Hbad.
Qed.

Lemma proxy_rejects_before_fetch_witness :
  (getCoin (λ _, FetchThrows) (coin_request "a/b")).2 = [] ∧
  (getCoin (λ _, FetchThrows) (coin_request "a/b")).1 =
    envelope_response 400 "Invalid or missing 'id' in request body" DataNull ∧
  (getMarkets (λ _, FetchThrows)
     {| method := "GET"; query := <["currency" := JStr " usd"]> ∅; body := None |}).1 =
    envelope_response 400 "Invalid currency parameter" DataNull.
Proof.
  split; [|split].
  - destruct (proxy_rejects_before_fetch (λ _, FetchThrows) (coin_request "a/b")) as [Hc _].
    apply Hc. reflexivity.
  - destruct (proxy_rejects_before_fetch (λ _, FetchThrows) (coin_request "a/b")) as [Hc _].
    apply Hc; reflexivity.
  - destruct (proxy_rejects_before_fetch (λ _, FetchThrows)
                {| method := "GET"; query := <["currency" := JStr " usd"]> ∅;
                   body := None |}) as [_ Hm].
    apply Hm; reflexivity.
Defined.

(** X21. When the upstream answers but its body cannot be read (the
    read inside the [try] throws), the proxy handlers answer with the
    generic 500 envelope "Failed to fetch data", whatever the upstream
    status was: a non-success status is passed on only together with its
    body. *)
Theorem proxy_unreadable_body_is_500 fetch req r :
  up_body r = None →
  (method req = "POST" →
   Js.test_class Js.cls_coinId 2 100 (coin_id req) = true →
   fetch (coin_url (coin_id req)) = FetchResolves r →
   getCoin fetch req =
     (envelope_response 500 "Failed to fetch data" DataNull,
      [FetchCall (coin_url (coin_id req))])) ∧
  (method req = "GET" →
   Js.test_class Js.cls_currency 2 10 (markets_currency req) = true →
   fetch (markets_url (markets_currency req)) = FetchResolves r →
   getMarkets fetch req =
     (envelope_response 500 "Failed to fetch data" DataNull,
      [FetchCall (markets_url (markets_currency req))])).
Proof.
  intros Hbody. split.
  - intros Hm Hv Hf. rewrite (getCoin_post fetch req Hm), Hv. f_equal.
    unfold getCoin. fold (coin_id req). rewrite Hm, Hv.
    rewrite (test_class_nonEmpty _ 2 100 _ ltac:(lia) Hv).
    rewrite (decide_False (P := "POST" = "OPTIONS")) by done.
    rewrite (decide_False (P := "POST" ≠ "POST")) by (intros ?; done).
    simpl. unfold response_json, response_text. rewrite Hf, Hbody.
    by destruct (negb (response_ok r)).
  - intros Hm Hv Hf. rewrite (getMarkets_get fetch req Hm), Hv. f_equal.
    unfold getMarkets. fold (markets_currency req). rewrite Hm, Hv.
    rewrite (decide_False (P := "GET" = "OPTIONS")) by done.
    rewrite (decide_False (P := "GET" ≠ "GET")) by (intros ?; done).
    simpl. unfold response_json, response_text. rewrite Hf, Hbody.
    by destruct (negb (response_ok r)).
Qed.

Lemma proxy_unreadable_body_is_500_witness :
  let fetch := λ _ : string,
    FetchResolves {| up_status := 404; up_body := None; up_parses := false |} in
  getCoin fetch (coin_request "bitcoin") =
    (envelope_response 500 "Failed to fetch data" DataNull,
     [FetchCall "https://api.coingecko.com/api/v3/coins/bitcoin"]) ∧
  getMarkets fetch {| method := "GET"; query := ∅; body := None |} =
    (envelope_response 500 "Failed to fetch data" DataNull,
     [FetchCall "https://api.coingecko.com/api/v3/coins/markets?vs_currency=usd"]).
Proof.
  cbv zeta. split.
  - destruct (proxy_unreadable_body_is_500
                (λ _, FetchResolves {| up_status := 404; up_body := None;
                                       up_parses := false |})
                (coin_request "bitcoin")
                {| up_status := 404; up_body := None; up_parses := false |}
                eq_refl) as [Hc _].
    exact (Hc eq_refl eq_refl eq_refl).
  - destruct (proxy_unreadable_body_is_500
                (λ _, FetchResolves {| up_status := 404; up_body := None;
                                       up_parses := false |})
                {| method := "GET"; query := ∅; body := None |}
                {| up_status := 404; up_body := None; up_parses := false |}
                eq_refl) as [_ Hm].
    exact (Hm eq_refl eq_refl eq_refl).
Defined.

(** ** Listings across states *)

Lemma NoDup_fst_inj {A B} (l : list (A * B)) x y :
  NoDup (fst <$> l) → x ∈ l → y ∈ l → x.1 = y.1 → x = y.
Proof.
  induction l as [|a l IH]; simpl; [by intros _ ?%elem_of_nil|].
  rewrite NoDup_cons. intros [Hnot Hnd] Hx Hy Heq.
  apply elem_of_cons in Hx as [->|Hx], Hy as [->|Hy]; [done| | |by apply IH].
  - exfalso. apply Hnot. rewrite Heq. by apply list_elem_of_fmap_2.
  - exfalso. apply Hnot. rewrite <-Heq. by apply list_elem_of_fmap_2.
Qed.

Lemma newer_first_both x y : newer_first x y → newer_first y x → x.1 = y.1.
Proof.
  unfold newer_first. intros [?|[? L1]] [?|[? L2]]; try lia.
  by apply (anti_symm String.le).
Qed.

(** A list with distinct ids has one ordering only. *)
Lemma orderBy_unique_ids l k :
  l ≡ₚ k → NoDup (fst <$> l) → StronglySorted newer_first k →
  orderBy_createdAt_desc l = k.
Proof.
  intros Hperm Hnd Hk.
  apply (StronglySorted_unique_strong newer_first);
    [|apply orderBy_sorted|done|by rewrite orderBy_perm].
  intros x1 x2 Hx1 Hx2 H12 H21.
  rewrite orderBy_perm in Hx1. rewrite <-Hperm in Hx2.
  eapply NoDup_fst_inj; [done..|]. by apply newer_first_both.
Qed.

Lemma NoDup_collection userId db : NoDup (collection_favorites userId db).
Proof. eapply NoDup_fmap_1, NoDup_collection_favorites. Qed.

(** The listing of a user depends on that user's documents only. *)
Lemma list_favorites_ext userId db1 db2 :
  (∀ id, docs db1 !! (userId, id) = docs db2 !! (userId, id)) →
  list_favorites userId db1 = list_favorites userId db2.
Proof.
  intros Hsame. unfold list_favorites. f_equal.
  apply orderBy_unique_ids; [|apply NoDup_collection_favorites|apply orderBy_sorted].
  rewrite orderBy_perm.
  apply NoDup_Permutation; [apply NoDup_collection..|].
  intros [id f]. by rewrite !elem_of_collection_favorites, Hsame.
Qed.

Lemma StronglySorted_filter {A} (R : relation A) (P : A → Prop)
    `{∀ x, Decision (P x)} l :
  StronglySorted R l → StronglySorted R (filter P l).
Proof.
  induction 1 as [|a l Hs IH Hall]; [constructor|].
  rewrite filter_cons. case_decide; [|done].
  constructor; [done|]. rewrite Forall_forall in Hall |- *.
  intros y [_ Hy]%list_elem_of_filter. by apply Hall.
Qed.

Lemma fmap_fst_filter {A B} (P : A → Prop) `{∀ x, Decision (P x)} (l : list (A * B)) :
  fst <$> filter (λ e, P e.1) l = filter P (fst <$> l).
Proof.
  induction l as [|[a b] l IH]; [done|].
  rewrite fmap_cons, !filter_cons. simpl.
  destruct (decide (P a)); [rewrite fmap_cons; simpl|]; by rewrite IH.
Qed.

(** A document stamped later than all the user's documents heads the listing. *)
Lemma list_favorites_insert u c f db db' :
  docs db' = <[favoriteRef u c := f]> (docs db) →
  docs db !! favoriteRef u c = None →
  (∀ id g, docs db !! favoriteRef u id = Some g → (createdAt g < createdAt f)%N) →
  list_favorites u db' = c :: list_favorites u db.
Proof.
  intros Hdocs Hfresh Hlater. unfold list_favorites, favoriteRef in *.
  rewrite (orderBy_unique_ids (collection_favorites u db')
             ((c, f) :: orderBy_createdAt_desc (collection_favorites u db))); [done| | |].
  - rewrite orderBy_perm.
    apply NoDup_Permutation; [apply NoDup_collection| |].
    + apply NoDup_cons. split; [|apply NoDup_collection].
      rewrite elem_of_collection_favorites. by rewrite Hfresh.
    + intros [id g]. rewrite elem_of_cons, !elem_of_collection_favorites, Hdocs.
      destruct (decide (id = c)) as [->|Hne].
      * rewrite lookup_insert_eq, Hfresh. split; [intros [= <-]; by left|].
        by intros [[= ->]|?].
      * rewrite lookup_insert_ne by congruence.
        split; [by right|]. by intros [[= ? ?]|?].
  - apply NoDup_collection_favorites.
  - constructor; [apply orderBy_sorted|].
    apply Forall_forall. intros [id g] Hin.
    rewrite orderBy_perm, elem_of_collection_favorites in Hin.
    left. simpl. by eapply Hlater.
Qed.

(** Deleting a document takes its id out of the listing and leaves the
    others in their order. *)
Lemma list_favorites_delete u c db db' :
  docs db' = delete (favoriteRef u c) (docs db) →
  list_favorites u db' = filter (λ id, id ≠ c) (list_favorites u db).
Proof.
  intros Hdocs. unfold list_favorites, favoriteRef in *.
  rewrite <-(fmap_fst_filter (λ id, id ≠ c)). f_equal.
  apply orderBy_unique_ids.
  - apply NoDup_Permutation; [apply NoDup_collection| |].
    + apply NoDup_filter. rewrite orderBy_perm. apply NoDup_collection.
    + intros [id g]. rewrite list_elem_of_filter, orderBy_perm.
      rewrite !elem_of_collection_favorites, Hdocs. simpl.
      rewrite lookup_delete_Some. split.
      * intros [Hne Hg]. split; [congruence|done].
      * intros [Hne Hg]. split; [congruence|done].
  - apply NoDup_collection_favorites.
  - apply StronglySorted_filter, orderBy_sorted.
Qed.

Lemma list_userId_list_request u :
  Js.test_class Js.cls_userId 3 128 u = true → list_userId (list_request u) = u.
Proof.
  intros Hv. unfold list_userId, list_request. simpl.
  rewrite lookup_insert_eq. simpl.
  rewrite (test_class_nonEmpty _ 3 128 _ ltac:(lia) Hv). simpl.
  by apply userId_normal.
Qed.

Lemma listing_valid u db :
  Js.test_class Js.cls_userId 3 128 u = true →
  listing u db = Some (DataFavorites (list_favorites u db)).
Proof.
  intros Hv. unfold listing.
  by rewrite (getFavorites_accepts (list_request u) db u (or_introl eq_refl)
                (list_userId_list_request u Hv) Hv).
Qed.

(** ** Timestamps *)

Lemma stamped_run_op op db :
  stamped_before_clock db → stamped_before_clock (db_after (run_op op db)).
Proof.
  intros Hst. destruct op as [store req|store req]; simpl.
  - destruct (toggleFavorite_db_cases store req db) as [->|(u & c & ->)]; [done|].
    rewrite runTransaction_toggle. unfold favoriteRef, stamped_before_clock.
    cbn [snd docs clock]. intros ref f.
    destruct (docs db !! (u, c)) eqn:Hf.
    + intros [_ Hl]%lookup_delete_Some. specialize (Hst _ _ Hl). lia.
    + intros [[<- <-]|[_ Hl]]%lookup_insert_Some; [simpl; lia|].
      specialize (Hst _ _ Hl). lia.
  - by rewrite getFavorites_db.
Qed.

Lemma distinct_run_op op db :
  stamped_before_clock db → distinct_stamps db →
  distinct_stamps (db_after (run_op op db)).
Proof.
  intros Hst Hd. destruct op as [store req|store req]; simpl.
  - destruct (toggleFavorite_db_cases store req db) as [->|(u & c & ->)]; [done|].
    rewrite runTransaction_toggle. unfold favoriteRef, distinct_stamps.
    cbn [snd docs clock]. intros ref1 ref2 f1 f2.
    destruct (docs db !! (u, c)) eqn:Hf.
    + intros [_ H1]%lookup_delete_Some [_ H2]%lookup_delete_Some. by eapply Hd.
    + intros [[<- <-]|[_ H1]]%lookup_insert_Some [[<- <-]|[_ H2]]%lookup_insert_Some;
        simpl; [done| | |by eapply Hd].
      * intros Heq. specialize (Hst _ _ H2). lia.
      * intros Heq. specialize (Hst _ _ H1). lia.
  - by rewrite getFavorites_db.
Qed.

Lemma stamps_run_ops ops db :
  stamped_before_clock db → distinct_stamps db →
  stamped_before_clock (run_ops ops db) ∧ distinct_stamps (run_ops ops db).
Proof.
  revert db. induction ops as [|op ops IH]; intros db Hst Hd; [done|].
  apply IH; [by apply stamped_run_op|by apply distinct_run_op].
Qed.

Lemma stamps_empty : stamped_before_clock empty_db ∧ distinct_stamps empty_db.
Proof.
  split.
  - intros ref f Hf. simpl in Hf. by rewrite lookup_empty in Hf.
  - intros ref1 ref2 f1 f2 Hf. simpl in Hf. by rewrite lookup_empty in Hf.
Qed.

(** ** Toggles and listings *)

(** X11. Adding a favourite puts it at the head of the user's listing
    and leaves the rest as it was: in every reachable state, when the
    pair has no entry, the listing after a committed toggle is the coin
    followed by the listing before it. *)
Theorem added_favorite_is_listed_first ops u c :
  Js.test_class Js.cls_userId 3 128 u = true →
  Js.test_class Js.cls_coinId 2 100 c = true →
  let db := run_ops ops empty_db in
  let db' := db_after (toggleFavorite Succeeds (toggle_request u c) db) in
  docs db !! favoriteRef u c = None →
  ∃ l, listing u db = Some (DataFavorites l) ∧
       listing u db' = Some (DataFavorites (c :: l)).
Proof.
  intros Hu Hc db db' Hfresh. exists (list_favorites u db).
  rewrite !listing_valid by done. split; [done|]. do 2 f_equal.
  subst db'. rewrite (toggle_request_commits u c db Hu Hc), Hfresh.
  eapply list_favorites_insert; [reflexivity|done|].
  intros id g Hg. simpl.
  destruct (stamps_run_ops ops empty_db) as [Hst _]; [apply stamps_empty..|].
  by eapply Hst.
Qed.

Lemma added_favorite_is_listed_first_witness :
  let db := run_ops [OpToggle Succeeds (toggle_request "user1" "bitcoin")] empty_db in
  let db' := db_after (toggleFavorite Succeeds (toggle_request "user1" "ethereum") db) in
  ∃ l, listing "user1" db = Some (DataFavorites l) ∧
       listing "user1" db' = Some (DataFavorites ("ethereum" :: l)).
Proof.
  apply (added_favorite_is_listed_first
           [OpToggle Succeeds (toggle_request "user1" "bitcoin")] "user1" "ethereum");
    reflexivity.
Defined.

(** X12. Removing a favourite takes it out of the user's listing and
    keeps the others in their order: in any state, when the pair has an
    entry, the listing after a committed toggle is the listing before it
    without that coin. *)
Theorem removed_favorite_leaves_the_rest u c db :
  Js.test_class Js.cls_userId 3 128 u = true →
  Js.test_class Js.cls_coinId 2 100 c = true →
  is_Some (docs db !! favoriteRef u c) →
  let db' := db_after (toggleFavorite Succeeds (toggle_request u c) db) in
  ∃ l, listing u db = Some (DataFavorites l) ∧
       listing u db' = Some (DataFavorites (filter (λ id, id ≠ c) l)).
Proof.
  intros Hu Hc [f Hf] db'. exists (list_favorites u db).
  rewrite !listing_valid by done. split; [done|]. do 2 f_equal.
  subst db'. rewrite (toggle_request_commits u c db Hu Hc), Hf.
  by eapply list_favorites_delete.
Qed.

Lemma removed_favorite_leaves_the_rest_witness :
  let db := run_ops [OpToggle Succeeds (toggle_request "user1" "bitcoin");
                     OpToggle Succeeds (toggle_request "user1" "ethereum");
                     OpToggle Succeeds (toggle_request "user1" "solana")] empty_db in
  let db' := db_after (toggleFavorite Succeeds (toggle_request "user1" "ethereum") db) in
  ∃ l, listing "user1" db = Some (DataFavorites l) ∧
       listing "user1" db' = Some (DataFavorites (filter (λ id, id ≠ "ethereum") l)).
Proof.
  apply (removed_favorite_leaves_the_rest "user1" "ethereum"); [reflexivity..|].
  vm_compute. eauto.
Defined.

(** ** What a toggle touches *)

(** The store a toggle leaves: the store it found, or that store with
    the one document of the request's pair inserted or deleted. *)
Lemma toggleFavorite_docs store req db :
  let ref := favoriteRef (toggle_userId req) (toggle_coinId req) in
  docs (db_after (toggleFavorite store req db)) = docs db ∧
    status (response (toggleFavorite store req db)) ≠ 200%Z ∨
  status (response (toggleFavorite store req db)) = 200%Z ∧
    docs (db_after (toggleFavorite store req db)) =
      match docs db !! ref with
      | Some _ => delete ref (docs db)
      | None => <[ref := {| coinId := toggle_coinId req; createdAt := clock db |}]> (docs db)
      end.
Proof.
  cbv zeta. unfold toggleFavorite. fold (toggle_userId req) (toggle_coinId req).
  case_decide; [by left|]. case_decide; [by left|].
  destruct (negb _ || negb _); [by left|].
  destruct (negb _ || negb _); [by left|].
  destruct store; [|by left].
  right. by rewrite runTransaction_toggle.
Qed.

Lemma toggleFavorite_frame store req db ref :
  ref ≠ favoriteRef (toggle_userId req) (toggle_coinId req) →
  docs (db_after (toggleFavorite store req db)) !! ref = docs db !! ref.
Proof.
  intros Hne.
  destruct (toggleFavorite_docs store req db) as [[-> _]|[_ ->]]; [done|].
  destruct (docs db !! _).
  - by rewrite lookup_delete_ne.
  - by rewrite lookup_insert_ne.
Qed.

(** X13. A toggle request touches at most one document, the one of its
    own (normalised) pair: whatever the request and the store do, every
    other document, of the same user or of another, is after the call
    what it was before. *)
Theorem toggle_touches_one_document store req db ref :
  ref ≠ favoriteRef (toggle_userId req) (toggle_coinId req) →
  docs (db_after (toggleFavorite store req db)) !! ref = docs db !! ref.
Proof. apply toggleFavorite_frame. Qed.

Lemma toggle_touches_one_document_witness :
  let db := run_ops [OpToggle Succeeds (toggle_request "user1" "bitcoin")] empty_db in
  docs (db_after (toggleFavorite Succeeds (toggle_request "user1" "ethereum") db))
    !! favoriteRef "user1" "bitcoin" = docs db !! favoriteRef "user1" "bitcoin".
Proof.
  apply (toggle_touches_one_document Succeeds (toggle_request "user1" "ethereum")).
  discriminate.
Defined.

Lemma getFavorites_response_ext store req db1 db2 :
  list_favorites (list_userId req) db1 = list_favorites (list_userId req) db2 →
  response (getFavorites store req db1) = response (getFavorites store req db2) ∧
  effects (getFavorites store req db1) = effects (getFavorites store req db2).
Proof.
  intros Hsame. unfold getFavorites. fold (list_userId req).
  case_decide; [done|]. case_decide; [done|].
  destruct (negb _ || negb _); [done|].
  destruct store; simpl; [|done].
  fold (list_favorites (list_userId req) db1) (list_favorites (list_userId req) db2).
  by rewrite Hsame.
Qed.

(** X14. A toggle by one user never changes what another user is shown:
    a list request for a different (normalised) userId gets the same
    response after the toggle as before it, whatever the toggle did. *)
Theorem toggle_leaves_other_users_listing store store' req lreq db :
  list_userId lreq ≠ toggle_userId req →
  response (getFavorites store' lreq (db_after (toggleFavorite store req db))) =
  response (getFavorites store' lreq db).
Proof.
  intros Hne. apply getFavorites_response_ext, list_favorites_ext. intros id.
  apply toggleFavorite_frame. unfold favoriteRef. congruence.
Qed.

Lemma toggle_leaves_other_users_listing_witness :
  let db := run_ops [OpToggle Succeeds (toggle_request "alice" "bitcoin")] empty_db in
  response (getFavorites Succeeds (list_request "alice")
              (db_after (toggleFavorite Succeeds (toggle_request "Alice" "bitcoin") db))) =
  response (getFavorites Succeeds (list_request "alice") db).
Proof.
  apply (toggle_leaves_other_users_listing Succeeds Succeeds
           (toggle_request "Alice" "bitcoin") (list_request "alice")).
  discriminate.
Defined.

(** X15. A toggle answers 200 exactly when it changed the store: every
    other answer (204, 400, 405, 500) leaves the documents as they were,
    and a 200 always comes with the entry of the pair created or
    deleted. *)
Theorem toggle_200_iff_store_changed store req db :
  status (response (toggleFavorite store req db)) = 200%Z ↔
  docs (db_after (toggleFavorite store req db)) ≠ docs db.
Proof.
  destruct (toggleFavorite_docs store req db) as [[Hsame Hst]|[Hst Hch]].
  - split; [done|]. intros Hne. by destruct Hne.
  - split; [intros _|done]. rewrite Hch. intros Heq.
    apply (f_equal (λ m, m !! favoriteRef (toggle_userId req) (toggle_coinId req))) in Heq.
    destruct (docs db !! _) eqn:Hf.
    + by rewrite lookup_delete_eq in Heq.
    + by rewrite lookup_insert_eq in Heq.
Qed.

(** X16. Serving the same well-formed toggle request again and again on
    a pair that starts absent alternates: after [n] committed calls the
    entry is present exactly when [n] is odd, the next call answers
    [favorited = true] exactly when [n] is even, and no other document
    has changed. *)
Theorem repeated_toggle_alternates req b u c db n :
  method req = "POST" → body req = Some b →
  b !! "userId" = Some (JStr u) → b !! "coinId" = Some (JStr c) →
  Js.test_class Js.cls_userId 3 128 u = true →
  Js.test_class Js.cls_coinId 2 100 c = true →
  docs db !! favoriteRef u c = None →
  snap_exists (docs (toggle_times n req db) !! favoriteRef u c) = Nat.odd n ∧
  favorited_of (response (toggleFavorite Succeeds req (toggle_times n req db))) =
    Some (Nat.even n) ∧
  (∀ ref, ref ≠ favoriteRef u c → docs (toggle_times n req db) !! ref = docs db !! ref).
Proof.
  intros Hm Hb Hu Hc Hvu Hvc Hfresh.
  assert (snap_exists (docs (toggle_times n req db) !! favoriteRef u c) = Nat.odd n ∧
          ∀ ref, ref ≠ favoriteRef u c →
                 docs (toggle_times n req db) !! ref = docs db !! ref) as [Hpar Hother].
  { induction n as [|n [IHp IHo]]; [unfold toggle_times; simpl; by rewrite Hfresh|].
    unfold toggle_times in *. rewrite Nat.iter_succ.
    rewrite (toggleFavorite_commits req _ b u c Hm Hb Hu Hc Hvu Hvc). cbv zeta. simpl.
    rewrite Nat.odd_succ, <-Nat.negb_odd, <-IHp.
    set (dbn := Nat.iter n _ db) in *. split.
    - destruct (docs dbn !! favoriteRef u c).
      + by rewrite lookup_delete_eq.
      + by rewrite lookup_insert_eq.
    - intros ref Hne. rewrite <-(IHo ref Hne).
      destruct (docs dbn !! favoriteRef u c).
      + by rewrite lookup_delete_ne.
      + by rewrite lookup_insert_ne. }
  split; [done|]. split; [|done].
  rewrite (toggleFavorite_commits req _ b u c Hm Hb Hu Hc Hvu Hvc). cbv zeta.
  unfold favorited_of, response_data. simpl. by rewrite Hpar, Nat.negb_odd.
Qed.

Lemma repeated_toggle_alternates_witness :
  snap_exists (docs (toggle_times 5 (toggle_request "user1" "bitcoin") empty_db)
                 !! favoriteRef "user1" "bitcoin") = Nat.odd 5 ∧
  favorited_of (response (toggleFavorite Succeeds (toggle_request "user1" "bitcoin")
                            (toggle_times 5 (toggle_request "user1" "bitcoin") empty_db))) =
    Some (Nat.even 5) ∧
  (∀ ref, ref ≠ favoriteRef "user1" "bitcoin" →
          docs (toggle_times 5 (toggle_request "user1" "bitcoin") empty_db) !! ref =
          docs empty_db !! ref).
Proof.
  apply (repeated_toggle_alternates (toggle_request "user1" "bitcoin")
           (<["userId" := JStr "user1"]> (<["coinId" := JStr "bitcoin"]> ∅))
           "user1" "bitcoin" empty_db 5); reflexivity.
Defined.

(** ** The listing handler *)

(** X17. A list request never writes: whatever the request and the
    store do, the store is after the call what it was before; the handler
    queries the store at most once, for the validated userId; and when
    that query throws it answers with the generic 500 envelope. *)
Theorem listing_never_writes store req db :
  db_after (getFavorites store req db) = db ∧
  (effects (getFavorites store req db) = [] ∨
   Js.test_class Js.cls_userId 3 128 (list_userId req) = true ∧
   effects (getFavorites store req db) = [QueryCall (list_userId req)]) ∧
  (store = Throws → effects (getFavorites store req db) ≠ [] →
   response (getFavorites store req db) =
     envelope_response 500 "Failed to fetch favorites" DataNull).
Proof.
  assert (∀ res, db = db ∧ ((@nil Effect = [] ∨
            Js.test_class Js.cls_userId 3 128 (list_userId req) = true ∧
            @nil Effect = [QueryCall (list_userId req)]) ∧
          (store = Throws → @nil Effect ≠ [] →
           res = envelope_response 500 "Failed to fetch favorites" DataNull))) as Hquiet.
  { intros res. split; [done|]. split; [by left|]. by intros _ []. }
  unfold getFavorites. fold (list_userId req).
  case_decide; [apply Hquiet|]. case_decide; [apply Hquiet|].
  destruct (Js.test_class Js.cls_userId 3 128 (list_userId req)) eqn:Hv.
  - rewrite (test_class_nonEmpty _ 3 128 _ ltac:(lia) Hv). simpl.
    destruct store; simpl; (split; [done|]); (split; [by right|done]).
  - rewrite orb_true_r. apply Hquiet.
Qed.

Lemma getFavorites_ext store req1 req2 db :
  method req1 = method req2 → list_userId req1 = list_userId req2 →
  getFavorites store req1 db = getFavorites store req2 db.
Proof.
  intros Hm Hu. unfold getFavorites. fold (list_userId req1) (list_userId req2).
  by rewrite Hm, Hu.
Qed.

(** X18. Where each handler reads its input.  The listing takes the
    userId from the query string on GET and from the body on POST, and
    ignores the other; the toggle and the coin detail read the body only,
    the market list the query only. *)
Theorem handlers_read_one_source fetch store req db b q :
  (method req = "GET" → getFavorites store (with_body b req) db = getFavorites store req db) ∧
  (method req = "POST" →
   getFavorites store (with_query q req) db = getFavorites store req db) ∧
  toggleFavorite store (with_query q req) db = toggleFavorite store req db ∧
  getCoin fetch (with_query q req) = getCoin fetch req ∧
  getMarkets fetch (with_body b req) = getMarkets fetch req.
Proof.
  split; [|split; [|split; [|split]]].
  - intros Hm. apply getFavorites_ext; [done|].
    unfold list_userId, with_body. simpl. by rewrite !decide_True.
  - intros Hm. apply getFavorites_ext; [done|].
    unfold list_userId, with_query. simpl.
    by rewrite !(decide_False (P := method req = "GET")) by (by rewrite Hm).
  - by apply toggleFavorite_ext.
  - by apply getCoin_ext.
  - by apply getMarkets_ext.
Qed.

Lemma handlers_read_one_source_witness :
  getFavorites Succeeds
    (with_body (Some (<["userId" := JStr "mallory"]> ∅)) (list_request "user1")) empty_db =
  getFavorites Succeeds (list_request "user1") empty_db.
Proof.
  destruct (handlers_read_one_source (λ _, FetchThrows) Succeeds (list_request "user1")
              empty_db (Some (<["userId" := JStr "mallory"]> ∅)) ∅) as [Hget _].
  apply Hget. reflexivity.
Defined.

Lemma elem_of_list_favorites u db c :
  c ∈ list_favorites u db ↔ is_Some (docs db !! favoriteRef u c).
Proof.
  unfold list_favorites. rewrite list_elem_of_fmap. split.
  - intros ([c' f] & -> & Hin). rewrite orderBy_perm in Hin.
    apply elem_of_collection_favorites in Hin. by eexists.
  - intros [f Hf]. exists (c, f). split; [done|].
    rewrite orderBy_perm. by apply elem_of_collection_favorites.
Qed.

(** X19. The toggle's answer and the listing agree: after a committed
    toggle of a well-formed pair, the coin is in the user's listing
    exactly when the toggle answered [favorited = true], and every other
    coin is listed exactly when it was listed before. *)
Theorem toggle_answer_matches_listing u c db :
  Js.test_class Js.cls_userId 3 128 u = true →
  Js.test_class Js.cls_coinId 2 100 c = true →
  let out := toggleFavorite Succeeds (toggle_request u c) db in
  ∃ favorited before after,
    favorited_of (response out) = Some favorited ∧
    listing u db = Some (DataFavorites before) ∧
    listing u (db_after out) = Some (DataFavorites after) ∧
    (c ∈ after ↔ favorited = true) ∧
    (∀ c', c' ≠ c → c' ∈ after ↔ c' ∈ before).
Proof.
  intros Hu Hc out.
  exists (negb (snap_exists (docs db !! favoriteRef u c))),
         (list_favorites u db), (list_favorites u (db_after out)).
  rewrite !listing_valid by done. subst out.
  rewrite (toggleFavorite_commits (toggle_request u c) db
             (<["userId" := JStr u]> (<["coinId" := JStr c]> ∅)) u c) by done.
  cbv zeta. split; [done|]. split; [done|]. split; [done|].
  rewrite !elem_of_list_favorites. cbn [db_after docs]. split.
  - destruct (docs db !! favoriteRef u c) eqn:Hf.
    + rewrite lookup_delete_eq. simpl. split; [by intros [? ?]|done].
    + rewrite lookup_insert_eq. simpl. split; [done|by eauto].
  - intros c' Hne. rewrite !elem_of_list_favorites. cbn [db_after docs].
    assert (favoriteRef u c ≠ favoriteRef u c') as Hr by (unfold favoriteRef; congruence).
    destruct (docs db !! favoriteRef u c).
    + by rewrite lookup_delete_ne.
    + by rewrite lookup_insert_ne.
Qed.

Lemma toggle_answer_matches_listing_witness :
  let out := toggleFavorite Succeeds (toggle_request "user1" "bitcoin") empty_db in
  ∃ favorited before after,
    favorited_of (response out) = Some favorited ∧
    listing "user1" empty_db = Some (DataFavorites before) ∧
    listing "user1" (db_after out) = Some (DataFavorites after) ∧
    (("bitcoin" : string) ∈ after ↔ favorited = true) ∧
    (∀ c', c' ≠ "bitcoin" → c' ∈ after ↔ c' ∈ before).
Proof.
  apply (toggle_answer_matches_listing "user1" "bitcoin" empty_db); reflexivity.
Defined.

(** ** What gets stored *)

Lemma toggleFavorite_200_validated store req db :
  status (response (toggleFavorite store req db)) = 200%Z →
  Js.test_class Js.cls_userId 3 128 (toggle_userId req) = true ∧
  Js.test_class Js.cls_coinId 2 100 (toggle_coinId req) = true.
Proof.
  unfold toggleFavorite. fold (toggle_userId req) (toggle_coinId req).
  case_decide; [done|]. case_decide; [done|].
  destruct (Js.test_class Js.cls_userId 3 128 (toggle_userId req));
    [|by rewrite orb_true_r].
  destruct (Js.test_class Js.cls_coinId 2 100 (toggle_coinId req));
    [done|]. rewrite orb_true_r. by destruct (negb _ || negb _).
Qed.

Lemma keys_validated_run_op op db :
  keys_validated db → keys_validated (db_after (run_op op db)).
Proof.
  intros Hk. destruct op as [store req|store req]; simpl.
  - destruct (toggleFavorite_docs store req db) as [[Hsame _]|[Hst Hch]].
    + unfold keys_validated. by rewrite Hsame.
    + apply toggleFavorite_200_validated in Hst as [Hu Hc].
      unfold keys_validated. rewrite Hch. intros u c f.
      destruct (docs db !! favoriteRef (toggle_userId req) (toggle_coinId req)).
      * intros [_ Hl]%lookup_delete_Some. by eapply Hk.
      * unfold favoriteRef.
        intros [[[= <- <-] _]|[_ Hl]]%lookup_insert_Some; [done|]. by eapply Hk.
  - by rewrite getFavorites_db.
Qed.

(** X20. Nothing malformed is ever stored: in every state reached from
    the empty store by toggle and list requests, each document sits
    under a userId that passes the userId pattern and a coinId that
    passes the lower-case coinId pattern: no upper-case letter, no
    surrounding space, whatever the requests carried. *)
Theorem stored_identifiers_are_validated ops :
  keys_validated (run_ops ops empty_db).
Proof.
  assert (∀ db, keys_validated db → keys_validated (run_ops ops db)) as Hrun.
  { induction ops as [|op ops IH]; intros db Hk; [done|].
    apply IH, keys_validated_run_op, Hk. }
  apply Hrun. intros u c f Hf. simpl in Hf. by rewrite lookup_empty in Hf.
Qed.

(** ** Toggle twice *)

(** C3, as the code has it. Two sequential toggles with the same
    well-formed arguments answer [true] then [false] when the entry was
    absent, [false] then [true] when it was present, and leave the same
    coins in the store.  When the entry was absent the documents are
    exactly as before; when it was present the entry is a new one, stamped
    by the second call, and in a state reached from the empty store it
    then heads the user's listing, the other coins keeping their order. *)
Theorem toggle_twice req db b u c :
  method req = "POST" → body req = Some b →
  b !! "userId" = Some (JStr u) → b !! "coinId" = Some (JStr c) →
  Js.test_class Js.cls_userId 3 128 u = true →
  Js.test_class Js.cls_coinId 2 100 c = true →
  let out1 := toggleFavorite Succeeds req db in
  let out2 := toggleFavorite Succeeds req (db_after out1) in
  let ref := favoriteRef u c in
  (favorited_of (response out1), favorited_of (response out2)) =
    (if snap_exists (docs db !! ref) then (Some false, Some true)
     else (Some true, Some false)) ∧
  dom (docs (db_after out2)) = dom (docs db) ∧
  (docs db !! ref = None → docs (db_after out2) = docs db) ∧
  (is_Some (docs db !! ref) →
     docs (db_after out2) =
       <[ref := {| coinId := c; createdAt := N.succ (clock db) |}]> (docs db)) ∧
  (is_Some (docs db !! ref) →
   ∀ ops, db = run_ops ops empty_db →
   ∃ l, listing u db = Some (DataFavorites l) ∧
        listing u (db_after out2) =
          Some (DataFavorites (c :: filter (λ id, id ≠ c) l))).
Proof.
  intros Hm Hb Hu Hc Hvu Hvc out1 out2 ref. subst out1 out2.
  rewrite !(toggleFavorite_commits req _ b u c Hm Hb Hu Hc Hvu Hvc).
  cbv zeta. fold ref. simpl.
  destruct (docs db !! ref) as [f|] eqn:Hf; simpl.
  - rewrite lookup_delete_eq. simpl.
    split; [done|]. split; [|split; [done|split]].
    + rewrite insert_delete_eq. apply set_eq. intros k. rewrite !elem_of_dom.
      destruct (decide (k = ref)) as [->|Hne].
      * rewrite lookup_insert_eq, Hf. split; eauto.
      * by rewrite lookup_insert_ne.
    + by rewrite insert_delete_eq.
    + intros _ ops Hops. exists (list_favorites u db).
      rewrite !listing_valid by done. split; [done|]. do 2 f_equal.
      set (db1 := {| docs := delete ref (docs db); clock := N.succ (clock db) |}).
      rewrite <-(list_favorites_delete u c db db1 eq_refl).
      eapply (list_favorites_insert u c _ db1); [reflexivity|apply lookup_delete_eq|].
      intros id g Hg. cbn [db1 docs createdAt] in Hg |- *.
      apply lookup_delete_Some in Hg as [_ Hg].
      destruct (stamps_run_ops ops empty_db) as [Hst _]; [apply stamps_empty..|].
      rewrite <-Hops in Hst. specialize (Hst _ _ Hg). lia.
  - rewrite lookup_insert_eq. simpl. rewrite delete_insert_id by done.
    split; [done|]. split; [done|]. split; [done|].
    split; by intros [? ?].
Qed.

Lemma toggle_twice_witness :
  let db := run_ops [OpToggle Succeeds (toggle_request "user1" "btc");
                     OpToggle Succeeds (toggle_request "user1" "eth")] empty_db in
  let req := toggle_request "user1" "btc" in
  let out1 := toggleFavorite Succeeds req db in
  let out2 := toggleFavorite Succeeds req (db_after out1) in
  (favorited_of (response out1), favorited_of (response out2)) =
    (Some false, Some true) ∧
  dom (docs (db_after out2)) = dom (docs db) ∧
  docs (db_after out2) =
    <[favoriteRef "user1" "btc" := {| coinId := "btc"; createdAt := 3 |}]> (docs db) ∧
  listing "user1" db = Some (DataFavorites ["eth"; "btc"]) ∧
  listing "user1" (db_after out2) = Some (DataFavorites ["btc"; "eth"]) ∧
  (favorited_of (response (toggleFavorite Succeeds req empty_db)),
   favorited_of (response (toggleFavorite Succeeds req
                             (db_after (toggleFavorite Succeeds req empty_db))))) =
    (Some true, Some false) ∧
  docs (db_after (toggleFavorite Succeeds req
                    (db_after (toggleFavorite Succeeds req empty_db)))) = docs empty_db.
Proof.
  cbv zeta.
  destruct (toggle_twice (toggle_request "user1" "btc")
              (run_ops [OpToggle Succeeds (toggle_request "user1" "btc");
                        OpToggle Succeeds (toggle_request "user1" "eth")] empty_db)
              (<["userId" := JStr "user1"]> (<["coinId" := JStr "btc"]> ∅))
              "user1" "btc" eq_refl eq_refl eq_refl eq_refl eq_refl eq_refl)
    as (Hres & Hdom & _ & Hdocs & Hlist).
  destruct (toggle_twice (toggle_request "user1" "btc") empty_db
              (<["userId" := JStr "user1"]> (<["coinId" := JStr "btc"]> ∅))
              "user1" "btc" eq_refl eq_refl eq_refl eq_refl eq_refl eq_refl)
    as (Hres0 & _ & Hdocs0 & _ & _).
  assert (is_Some (docs (run_ops [OpToggle Succeeds (toggle_request "user1" "btc");
                                  OpToggle Succeeds (toggle_request "user1" "eth")]
                           empty_db) !! favoriteRef "user1" "btc")) as Hsome.
  { vm_compute. eauto. }
  destruct (Hlist Hsome _ eq_refl) as (l & Hl & Hl').
  assert (l = ["eth"; "btc"]) as ->.
  { vm_compute in Hl. by injection Hl as <-. }
  split; [exact Hres|]. split; [exact Hdom|]. split; [exact (Hdocs Hsome)|].
  split; [exact Hl|]. split; [exact Hl'|].
  split; [exact Hres0|]. exact (Hdocs0 eq_refl).
Defined.

(** C3, as the claim has it, fails: an entry that existed is deleted and
    created anew, with a later [createdAt], so the documents differ and
    the listing order changes. *)
Lemma toggle_twice_not_identity :
  let db := run_ops [OpToggle Succeeds (toggle_request "user1" "btc");
                     OpToggle Succeeds (toggle_request "user1" "eth")] empty_db in
  let db2 := run_ops [OpToggle Succeeds (toggle_request "user1" "btc");
                      OpToggle Succeeds (toggle_request "user1" "btc")] db in
  docs db2 ≠ docs db ∧
  favoriteSet "user1" db2 ≠ favoriteSet "user1" db ∧
  response_data (response (getFavorites Succeeds (list_request "user1") db)) =
    Some (DataFavorites ["eth"; "btc"]) ∧
  response_data (response (getFavorites Succeeds (list_request "user1") db2)) =
    Some (DataFavorites ["btc"; "eth"]).
Proof.
  cbv zeta. split; [|split; [|split]].
  - intros H. apply (f_equal (λ m, m !! favoriteRef "user1" "btc")) in H.
    vm_compute in H. discriminate.
  - vm_compute. discriminate.
  - vm_compute. reflexivity.
  - vm_compute. reflexivity.
Qed.
